(** * The pandas-to-polars cookbook: a model of the chapter scripts

  Every chapter of the cookbook is a script that reads a CSV file,
  applies a short chain of dataframe operations, once in pandas and once
  in polars, and plots the result.  The development below embeds the
  chains the scripts write.  The dataframe operations themselves belong
  to pandas and polars; each one is given here the behaviour its library
  documents, restricted to the arguments the scripts pass. *)

From Stdlib Require Import String Ascii List Bool Arith ZArith QArith Lia.
From Stdlib Require Import Permutation Sorted DecimalString.
From Stdlib Require Import Floats.PrimFloat.
Import ListNotations.

Set Warnings "-inexact-float".

Local Close Scope Q_scope.
Local Open Scope string_scope.
Local Open Scope list_scope.

(** ** Text *)

Module Text.

(** A Python [str] is a sequence of characters, and both libraries
    slice and measure a string by characters.  A [string] here is the
    sequence of the bytes of the UTF-8 encoding, the form in which the
    CSV file holds the text: a character is a lead byte followed by its
    continuation bytes, the bytes [0x80] to [0xBF]. *)
Definition is_continuation (c : ascii) : bool :=
  let n := nat_of_ascii c in (128 <=? n)%nat && (n <=? 191)%nat.

(** [len(s)]: the number of characters. *)
Fixpoint char_length (s : string) : nat :=
  match s with
  | EmptyString => 0
  | String c s' =>
      if is_continuation c then char_length s' else S (char_length s')
  end.

(** The first [n] characters, [s[:n]]. *)
Fixpoint take_chars (n : nat) (s : string) : string :=
  match s with
  | EmptyString => EmptyString
  | String c s' =>
      if is_continuation c then String c (take_chars n s')
      else match n with
           | O => EmptyString
           | S k => String c (take_chars k s')
           end
  end.

Fixpoint skip_continuation (s : string) : string :=
  match s with
  | EmptyString => EmptyString
  | String c s' => if is_continuation c then skip_continuation s' else s
  end.

(** All but the first [n] characters, [s[n:]]. *)
Fixpoint drop_chars (n : nat) (s : string) : string :=
  match n with
  | O => s
  | S k =>
      match s with
      | EmptyString => EmptyString
      | String _ s' => drop_chars k (skip_continuation s')
      end
  end.

(** [len] characters from the character at [offset]. *)
Definition slice (offset len : nat) (s : string) : string :=
  take_chars len (drop_chars offset s).

(** A name made of ASCII characters only. *)
Fixpoint ascii_only (s : string) : bool :=
  match s with
  | EmptyString => true
  | String c s' => (nat_of_ascii c <? 128)%nat && ascii_only s'
  end.

End Text.

(** ** Dataframes *)

Module Frame.

(** The two column types the scripts compute with: strings
    ([pl.Utf8], pandas [object] holding [str]) and booleans.  A missing
    value, polars' [null] and pandas' [NaN], is [None]. *)
Inductive dtype := Utf8 | Boolean.

Definition denote (t : dtype) : Type :=
  match t with Utf8 => string | Boolean => bool end.

Inductive column :=
| StrCol (l : list (option string))
| BoolCol (l : list (option bool)).

(** A dataframe keeps its columns in order. *)
Definition DataFrame := list (string * column).

Inductive error :=
| ColumnNotFound (name : string)
| SchemaError
| ShapeError
| DuplicateError (name : string)
| InvalidOperationError.

Inductive result (A : Type) :=
| Ok (a : A)
| Err (e : error).
Arguments Ok {A} a.
Arguments Err {A} e.

Definition bind {A B} (r : result A) (k : A -> result B) : result B :=
  match r with Ok a => k a | Err e => Err e end.

Definition col_length (c : column) : nat :=
  match c with StrCol l => length l | BoolCol l => length l end.

Definition columns (df : DataFrame) : list string := map fst df.

Definition height (df : DataFrame) : nat :=
  match df with [] => 0 | (_, c) :: _ => col_length c end.

Fixpoint get_column (name : string) (df : DataFrame) : option column :=
  match df with
  | [] => None
  | (n, c) :: rest => if String.eqb n name then Some c else get_column name rest
  end.

(** [df[col].null_count()] *)
Definition null_count (c : column) : nat :=
  match c with
  | StrCol l => length (filter (fun x => match x with None => true | Some _ => false end) l)
  | BoolCol l => length (filter (fun x => match x with None => true | Some _ => false end) l)
  end.

(** Replace the column called [name] where it stands, or append it. *)
Fixpoint put_column (name : string) (c : column) (df : DataFrame) : DataFrame :=
  match df with
  | [] => [(name, c)]
  | (n, c') :: rest =>
      if String.eqb n name then (n, c) :: rest
      else (n, c') :: put_column name c rest
  end.

Definition mem (s : string) (l : list string) : bool :=
  existsb (String.eqb s) l.

Fixpoint first_duplicate (names : list string) : option string :=
  match names with
  | [] => None
  | n :: rest => if mem n rest then Some n else first_duplicate rest
  end.

Definition as_column (t : dtype) : list (option (denote t)) -> column :=
  match t with Utf8 => StrCol | Boolean => BoolCol end.

Definition typed_values (t : dtype) (c : column) : option (list (option (denote t))) :=
  match t, c with
  | Utf8, StrCol l => Some l
  | Boolean, BoolCol l => Some l
  | _, _ => None
  end.

End Frame.

Notation "x <- e ;; k" := (Frame.bind e (fun x => k))
  (at level 61, e at next level, right associativity).

(** ** Polars expressions *)

Module Polars.
Import Frame.

(** An expression evaluates to a series, or to a literal that is
    broadcast against the series it meets. *)
Inductive bcast (A : Type) :=
| Scalar (a : A)
| Series (l : list A).
Arguments Scalar {A} a.
Arguments Series {A} l.

Fixpoint zip_with {A B C} (f : A -> B -> C) (l1 : list A) (l2 : list B)
  : option (list C) :=
  match l1, l2 with
  | [], [] => Some []
  | a :: l1', b :: l2' =>
      match zip_with f l1' l2' with
      | Some l => Some (f a b :: l)
      | None => None
      end
  | _, _ => None
  end.

Definition lift1 {A B} (f : A -> B) (x : bcast A) : bcast B :=
  match x with
  | Scalar a => Scalar (f a)
  | Series l => Series (map f l)
  end.

Definition lift2 {A B C} (f : A -> B -> C) (x : bcast A) (y : bcast B)
  : result (bcast C) :=
  match x, y with
  | Scalar a, Scalar b => Ok (Scalar (f a b))
  | Scalar a, Series l => Ok (Series (map (f a) l))
  | Series l, Scalar b => Ok (Series (map (fun a => f a b) l))
  | Series l1, Series l2 =>
      match zip_with f l1 l2 with
      | Some l => Ok (Series l)
      | None => Err ShapeError
      end
  end.

(** The part of the expression language the scripts use.  [pl.col] is
    untyped in polars; here the expected type is written next to the
    name and checked against the frame at evaluation. *)
Inductive expr : dtype -> Type :=
| col (t : dtype) (name : string) : expr t
| lit_null (t : dtype) : expr t
| lit_str (s : string) : expr Utf8
| alias (t : dtype) (e : expr t) (name : string) : expr t
| str_slice (e : expr Utf8) (offset len : nat) : expr Utf8
| str_starts_with (e : expr Utf8) (prefix : string) : expr Boolean
| str_contains (e : expr Utf8) (pattern : string) : expr Boolean
| eq_ (a b : expr Utf8) : expr Boolean
| or_ (a b : expr Boolean) : expr Boolean
| and_ (a b : expr Boolean) : expr Boolean
| not_ (a : expr Boolean) : expr Boolean
| is_not_null (t : dtype) (e : expr t) : expr Boolean
| when_then_otherwise (t : dtype) (c : expr Boolean) (a b : expr t) : expr t.

Arguments alias {t} e name.
Arguments is_not_null {t} e.
Arguments when_then_otherwise {t} c a b.

(** Kleene logic on nullable booleans. *)
Definition kleene_or (x y : option bool) : option bool :=
  match x, y with
  | Some true, _ | _, Some true => Some true
  | Some false, Some false => Some false
  | _, _ => None
  end.

Definition kleene_and (x y : option bool) : option bool :=
  match x, y with
  | Some false, _ | _, Some false => Some false
  | Some true, Some true => Some true
  | _, _ => None
  end.

Definition null_eq (x y : option string) : option bool :=
  match x, y with
  | Some a, Some b => Some (String.eqb a b)
  | _, _ => None
  end.

(** Does [pattern] occur in [s]?  The scripts only pass literal patterns
    without regular-expression metacharacters. *)
Fixpoint contains (pattern s : string) : bool :=
  if String.prefix pattern s then true
  else match s with
       | EmptyString => false
       | String _ s' => contains pattern s'
       end.

Definition lift3_when {A} (c : bcast (option bool)) (a b : bcast A)
  : result (bcast A) :=
  bind (lift2 (fun (x : A) (y : A) => (x, y)) a b) (fun ab =>
  lift2 (fun (ci : option bool) (p : A * A) =>
           match ci with Some true => fst p | _ => snd p end) c ab).

Fixpoint eval (df : DataFrame) {t : dtype} (e : expr t)
  : result (bcast (option (denote t))) :=
  match e in expr t return result (bcast (option (denote t))) with
  | col t name =>
      match get_column name df with
      | None => Err (ColumnNotFound name)
      | Some c =>
          match typed_values t c with
          | Some l => Ok (Series l)
          | None => Err SchemaError
          end
      end
  | lit_null t => Ok (Scalar None)
  | lit_str s => Ok (Scalar (Some s))
  | alias e _ => eval df e
  | str_slice e offset len =>
      bind (eval df e) (fun v =>
      Ok (lift1 (option_map (Text.slice offset len)) v))
  | str_starts_with e p =>
      bind (eval df e) (fun v =>
      Ok (lift1 (option_map (String.prefix p)) v))
  | str_contains e p =>
      bind (eval df e) (fun v =>
      Ok (lift1 (option_map (contains p)) v))
  | eq_ a b =>
      bind (eval df a) (fun va =>
      bind (eval df b) (fun vb => lift2 null_eq va vb))
  | or_ a b =>
      bind (eval df a) (fun va =>
      bind (eval df b) (fun vb => lift2 kleene_or va vb))
  | and_ a b =>
      bind (eval df a) (fun va =>
      bind (eval df b) (fun vb => lift2 kleene_and va vb))
  | not_ a =>
      bind (eval df a) (fun va => Ok (lift1 (option_map negb) va))
  | is_not_null e =>
      bind (eval df e) (fun v =>
      Ok (lift1 (fun x => Some (match x with Some _ => true | None => false end)) v))
  | when_then_otherwise c a b =>
      bind (eval df c) (fun vc =>
      bind (eval df a) (fun va =>
      bind (eval df b) (fun vb => lift3_when vc va vb)))
  end.

(** The name polars gives the output of a positional expression: an
    alias, or else the name of its leftmost column. *)
Fixpoint output_name {t : dtype} (e : expr t) : string :=
  match e with
  | col _ name => name
  | lit_null _ => "literal"
  | lit_str _ => "literal"
  | alias _ name => name
  | str_slice e _ _ => output_name e
  | str_starts_with e _ => output_name e
  | str_contains e _ => output_name e
  | eq_ a _ => output_name a
  | or_ a _ => output_name a
  | and_ a _ => output_name a
  | not_ a => output_name a
  | is_not_null e => output_name e
  | when_then_otherwise _ a _ => output_name a
  end.

(** A literal result is broadcast to the height of the frame (to one
    row when the frame has no column yet). *)
Definition materialize (df : DataFrame) {A} (v : bcast A) : list A :=
  match v with
  | Series l => l
  | Scalar a => repeat a (match df with [] => 1 | _ => height df end)
  end.

(** [df.with_columns(name=e)]: the keyword is the name of the new
    column. *)
Definition with_columns_named (name : string) {t : dtype} (e : expr t)
  (df : DataFrame) : result DataFrame :=
  bind (eval df e) (fun v =>
    let l := materialize df v in
    match df with
    | [] => Ok [(name, as_column t l)]
    | _ => if Nat.eqb (length l) (height df)
           then Ok (put_column name (as_column t l) df)
           else Err ShapeError
    end).

(** [df.with_columns(e)]: the column is named by the expression. *)
Definition with_columns {t : dtype} (e : expr t) (df : DataFrame)
  : result DataFrame :=
  with_columns_named (output_name e) e df.

(** [df.filter(e)] keeps the rows where [e] is true; a row where it is
    null is dropped. *)
Definition selected (m : option bool) : bool :=
  match m with Some true => true | _ => false end.

Fixpoint keep {A} (mask : list bool) (l : list A) : list A :=
  match mask, l with
  | m :: mask', a :: l' => if m then a :: keep mask' l' else keep mask' l'
  | _, _ => []
  end.

Definition filter_column (mask : list bool) (c : column) : column :=
  match c with
  | StrCol l => StrCol (keep mask l)
  | BoolCol l => BoolCol (keep mask l)
  end.

Definition filter_mask (df : DataFrame) (e : expr Boolean) : result (list bool) :=
  bind (eval df e) (fun v =>
    let m := map selected (materialize df v) in
    if Nat.eqb (length m) (height df) then Ok m else Err ShapeError).

Definition filter (e : expr Boolean) (df : DataFrame) : result DataFrame :=
  bind (filter_mask df e) (fun m =>
    Ok (map (fun nc => (fst nc, filter_column m (snd nc))) df)).

(** [df.select(name)] *)
Definition select (name : string) (df : DataFrame) : result DataFrame :=
  match get_column name df with
  | Some c => Ok [(name, c)]
  | None => Err (ColumnNotFound name)
  end.

(** [df.columns = names]: as many names as columns, all different. *)
Definition set_columns (names : list string) (df : DataFrame)
  : result DataFrame :=
  if negb (Nat.eqb (length names) (length df)) then Err ShapeError
  else match first_duplicate names with
       | Some n => Err (DuplicateError n)
       | None => Ok (combine names (map snd df))
       end.

(** [df.drop(names)]: every name has to be a column of the frame. *)
Definition drop (names : list string) (df : DataFrame) : result DataFrame :=
  match find (fun n => negb (mem n (columns df))) names with
  | Some n => Err (ColumnNotFound n)
  | None => Ok (List.filter (fun nc => negb (mem (fst nc) names)) df)
  end.

Fixpoint lookup (mapping : list (string * string)) (name : string)
  : option string :=
  match mapping with
  | [] => None
  | (k, v) :: rest => if String.eqb k name then Some v else lookup rest name
  end.

(** The pairs of a mapping that change a name.  [df.rename] sets a pair
    that maps a name to itself aside before it looks at the frame. *)
Definition effective (mapping : list (string * string))
  : list (string * string) :=
  List.filter (fun kv => negb (String.eqb (fst kv) (snd kv))) mapping.

(** [df.rename(mapping)]: every key that gets another name has to be a
    column of the frame. *)
Definition rename (mapping : list (string * string)) (df : DataFrame)
  : result DataFrame :=
  let mapping := effective mapping in
  match find (fun kv => negb (mem (fst kv) (columns df))) mapping with
  | Some kv => Err (ColumnNotFound (fst kv))
  | None =>
      set_columns
        (map (fun n => match lookup mapping n with Some n' => n' | None => n end)
             (columns df))
        df
  end.

End Polars.

(** ** Pandas series *)

Module Pandas.
Import Frame.

(** A series of strings ([object] dtype), [NaN] being [None]. *)
Definition StrSeries := list (option string).

(** The [object] series of [True], [False] and [NaN] the [.str]
    predicates return on a series with missing values. *)
Definition BoolObj := list (option bool).

(** [s.str.slice(start, stop)] *)
Definition str_slice (start stop : nat) (s : StrSeries) : StrSeries :=
  map (option_map (Text.slice start (stop - start))) s.

(** [s.str.startswith(pat)] *)
Definition str_startswith (pat : string) (s : StrSeries) : BoolObj :=
  map (option_map (String.prefix pat)) s.

(** [s == v]: a missing value is different from everything. *)
Definition eq_scalar (v : string) (s : StrSeries) : list bool :=
  map (fun c => match c with Some x => String.eqb x v | None => false end) s.

(** [s.notnull()] *)
Definition notnull (s : StrSeries) : list bool :=
  map (fun c => match c with Some _ => true | None => false end) s.

(** [s[mask] = v] with a boolean mask of the length of [s]. *)
Fixpoint setitem_mask {A} (s : list A) (mask : list bool) (v : A)
  : result (list A) :=
  match s, mask with
  | [], [] => Ok []
  | a :: s', m :: mask' =>
      rest <- setitem_mask s' mask' v ;;
      Ok ((if m then v else a) :: rest)
  | _, _ => Err ShapeError
  end.

(** [l | r] on two [object] series.  pandas fills the missing values of
    the right operand with [False], applies [|] element by element, keeps
    a missing left operand as the result where [|] raises, then fills what
    is still missing with [False] and casts to [bool]. *)
Definition fill_bool (s : BoolObj) : BoolObj :=
  map (fun c => match c with None => Some false | Some b => Some b end) s.

Definition vec_binop_or (x y : option bool) : option bool :=
  match x, y with
  | Some a, Some b => Some (a || b)
  | None, _ => None
  | Some _, None => None
  end.

Definition astype_bool (s : BoolObj) : list bool :=
  map (fun c => match c with Some b => b | None => false end) s.

Definition logical_or (l r : BoolObj) : result (list bool) :=
  match Polars.zip_with vec_binop_or l (fill_bool r) with
  | Some res => Ok (astype_bool (fill_bool res))
  | None => Err ShapeError
  end.

(** [l & r] and [~l] on [bool] series. *)
Definition logical_and (l r : list bool) : result (list bool) :=
  match Polars.zip_with andb l r with
  | Some res => Ok res
  | None => Err ShapeError
  end.

Definition invert (l : list bool) : list bool := map negb l.

(** [df[name]] as a string series, for the [.str] accessor. *)
Definition getitem_str (name : string) (df : DataFrame) : result StrSeries :=
  match get_column name df with
  | None => Err (ColumnNotFound name)
  | Some (StrCol l) => Ok l
  | Some (BoolCol _) => Err SchemaError
  end.

(** [df[name] = values] *)
Definition setitem (name : string) (c : column) (df : DataFrame)
  : result DataFrame :=
  match df with
  | [] => Ok [(name, c)]
  | _ => if Nat.eqb (col_length c) (height df)
         then Ok (put_column name c df)
         else Err ShapeError
  end.

End Pandas.

(** ** Reading a CSV file *)

Module Csv.
Import Frame.

(** A parsed file: the header and the text of the fields of each record.
    The readers below are given for the files both libraries accept: no
    record is longer than the header, no field is quoted, and the text
    of a field of a column without a dtype is one its inferred dtype can
    hold.  On another file a reader may raise; what it does there is not
    described here. *)
Record RawCsv := { header : list string; records : list (list string) }.

(** The strings pandas reads as [NaN] whatever [na_values] says. *)
Definition pd_default_na : list string :=
  [""; "#N/A"; "#N/A N/A"; "#NA"; "-1.#IND"; "-1.#QNAN"; "-NaN"; "-nan";
   "1.#IND"; "1.#QNAN"; "<NA>"; "N/A"; "NA"; "NULL"; "NaN"; "None"; "n/a";
   "nan"; "null"].

Section Readers.

(** The conversion the library's schema inference applies to the text of
    a field of a column that was given no dtype; it may itself give a
    missing value. *)
Variable infer : string -> string -> option string.

Definition convert (str_columns : list string) (name raw : string)
  : option string :=
  if mem name str_columns then Some raw else infer name raw.

(** A record shorter than the header has missing values at its end. *)
Definition pd_field (na_values str_columns : list string) (name : string)
  (field : option string) : option string :=
  match field with
  | None => None
  | Some raw =>
      if mem raw (pd_default_na ++ na_values) then None
      else convert str_columns name raw
  end.

Definition pl_field (null_values str_columns : list string) (name : string)
  (field : option string) : option string :=
  match field with
  | None => None
  | Some raw =>
      if mem raw ("" :: null_values) then None
      else convert str_columns name raw
  end.

Definition read_with (field : string -> option string -> option string)
  (csv : RawCsv) : DataFrame :=
  map (fun jn : nat * string =>
         (snd jn,
          StrCol (map (fun r => field (snd jn) (nth_error r (fst jn)))
                      (records csv))))
      (combine (seq 0 (length (header csv))) (header csv)).

(** [pd.read_csv(path, na_values=na_values, dtype={c: str for c in str_columns})] *)
Definition pd_read_csv (na_values str_columns : list string) (csv : RawCsv)
  : DataFrame :=
  read_with (pd_field na_values str_columns) csv.

(** [pl.read_csv(path, null_values=null_values, dtypes={c: str for c in str_columns})] *)
Definition pl_read_csv (null_values str_columns : list string) (csv : RawCsv)
  : DataFrame :=
  read_with (pl_field null_values str_columns) csv.

End Readers.

(** The value of row [i] of the [j]-th column. *)
Definition cell_at (df : DataFrame) (j i : nat) : option (option string) :=
  match nth_error df j with
  | Some (_, StrCol l) => nth_error l i
  | _ => None
  end.

End Csv.

(** ** Chapter 7: cleaning up messy data *)

Module Chapter7.
Import Frame.

Definition na_values : list string := ["NO CLUE"; "N/A"; "0"].

Definition zip : string := "Incident Zip".

Section Script.
Variable infer : string -> string -> option string.

(** Lines 54-56 and 60-62: the two readers with the sentinel list. *)
Definition requests (csv : Csv.RawCsv) : DataFrame :=
  Csv.pd_read_csv infer na_values [zip] csv.

Definition pl_requests (csv : Csv.RawCsv) : DataFrame :=
  Csv.pl_read_csv infer na_values [zip] csv.

End Script.

(** Lines 72-74 *)
Definition pl_rows_with_dashes (pl_requests : DataFrame) : result DataFrame :=
  Polars.with_columns_named "rows_with_dashes"
    (Polars.str_contains (Polars.col Utf8 zip) "-") pl_requests.

(** Lines 76-77, the frame of the note on null values. *)
Definition test : DataFrame :=
  [("dash", StrCol [Some "29616-0759"; None; Some "83"])].

Definition test_rows_with_dashes : result DataFrame :=
  Polars.with_columns_named "rows_with_dashes"
    (Polars.str_contains (Polars.col Utf8 "dash") "-") test.

(** Line 85: [requests["Incident Zip"] = requests["Incident Zip"].str.slice(0, 5)] *)
Definition truncate (requests : DataFrame) : result DataFrame :=
  zips <- Pandas.getitem_str zip requests ;;
  Pandas.setitem zip (StrCol (Pandas.str_slice 0 5 zips)) requests.

(** Line 91 *)
Definition pl_truncate (pl_requests : DataFrame) : result DataFrame :=
  Polars.with_columns (Polars.str_slice (Polars.col Utf8 zip) 0 5) pl_requests.

(** Lines 97-98:
    [zero_zips = requests["Incident Zip"] == "00000"]
    [requests.loc[zero_zips, "Incident Zip"] = np.nan] *)
Definition clear_zero_zips (requests : DataFrame) : result DataFrame :=
  zips <- Pandas.getitem_str zip requests ;;
  let zero_zips := Pandas.eq_scalar "00000" zips in
  cleared <- Pandas.setitem_mask zips zero_zips None ;;
  Ok (put_column zip (StrCol cleared) requests).

(** Lines 102-107 *)
Definition pl_clear_zero_zips (pl_requests : DataFrame) : result DataFrame :=
  Polars.with_columns
    (Polars.alias
       (Polars.when_then_otherwise
          (Polars.eq_ (Polars.col Utf8 zip) (Polars.lit_str "00000"))
          (Polars.lit_null Utf8)
          (Polars.col Utf8 zip))
       zip)
    pl_requests.

(** Lines 128-133 *)
Definition is_close (zips : Pandas.StrSeries) : result (list bool) :=
  Pandas.logical_or (Pandas.str_startswith "0" zips)
                    (Pandas.str_startswith "1" zips).

Definition is_far (zips : Pandas.StrSeries) : result (list bool) :=
  close <- is_close zips ;;
  Pandas.logical_and (Pandas.invert close) (Pandas.notnull zips).

(** Lines 136-140 *)
Definition pl_is_close : Polars.expr Boolean :=
  Polars.or_ (Polars.str_starts_with (Polars.col Utf8 zip) "0")
             (Polars.str_starts_with (Polars.col Utf8 zip) "1").

Definition pl_is_far : Polars.expr Boolean :=
  Polars.and_ (Polars.not_ pl_is_close)
              (Polars.is_not_null (Polars.col Utf8 zip)).

Definition pl_far_zips (pl_requests : DataFrame) : result DataFrame :=
  filtered <- Polars.filter pl_is_far pl_requests ;;
  Polars.select zip filtered.

(** What the comment of line 129 asks for: a zip is far when it is there
    and starts with neither 0 nor 1. *)
Definition far_zip (z : option string) : bool :=
  match z with
  | Some s => negb (String.prefix "0" s || String.prefix "1" s)
  | None => false
  end.

(** Lines 170-178 *)
Definition fix_zip_codes (zips : Pandas.StrSeries) : result Pandas.StrSeries :=
  (* Truncate everything to length 5 *)
  let zips := Pandas.str_slice 0 5 zips in
  (* Set 00000 zip codes to nan *)
  let zero_zips := Pandas.eq_scalar "00000" zips in
  Pandas.setitem_mask zips zero_zips None.

(** Lines 186-190.  The two [with_columns] calls pass the expressions
    under the keyword [zip_column], which names the column they write. *)
Definition pl_fix_zip_codes (data : DataFrame) (zip_column : string)
  : result DataFrame :=
  let slicer := Polars.str_slice (Polars.col Utf8 zip_column) 0 5 in
  let condition :=
    Polars.when_then_otherwise
      (Polars.eq_ (Polars.col Utf8 zip_column) (Polars.lit_str "00000"))
      (Polars.lit_null Utf8)
      (Polars.col Utf8 zip_column) in
  data <- Polars.with_columns_named "zip_column" slicer data ;;
  Polars.with_columns_named "zip_column" condition data.

(** The second step of both functions, on one value. *)
Definition clear_zero (z : option string) : option string :=
  match z with
  | Some s => if String.eqb s "00000" then None else Some s
  | None => None
  end.

(** The truncation both functions are written for. *)
Definition first5 (z : option string) : option string :=
  option_map (Text.slice 0 5) z.

End Chapter7.

(** ** Chapter 5: combining dataframes and scraping weather data *)

Module Chapter5.
Import Frame.

(** [col.lower()] on the letters [A] to [Z]; every other byte is left
    as it is, so this is [str.lower] on the names without a cased
    character outside ASCII. *)
Definition lower_ascii (c : ascii) : ascii :=
  let n := nat_of_ascii c in
  if ((65 <=? n) && (n <=? 90))%nat then ascii_of_nat (n + 32) else c.

Fixpoint lower (s : string) : string :=
  match s with
  | EmptyString => EmptyString
  | String c s' => String (lower_ascii c) (lower s')
  end.

(** The module-level variable the functions of the script can reach. *)
Record globals := { pl_weather_mar2012 : DataFrame }.

(** A function of the script: it may raise, and it may leave the
    module-level variables changed. *)
Definition M (A : Type) : Type := globals -> result (A * globals).

Definition ret {A} (a : A) : M A := fun g => Ok (a, g).

Definition bindM {A B} (m : M A) (k : A -> M B) : M B :=
  fun g => match m g with
           | Ok (a, g') => k a g'
           | Err e => Err e
           end.

Definition liftM {A} (r : result A) : M A :=
  fun g => match r with Ok a => Ok (a, g) | Err e => Err e end.

Definition get_global : M DataFrame := fun g => Ok (pl_weather_mar2012 g, g).

Definition set_global (df : DataFrame) : M unit :=
  fun _ => Ok (tt, {| pl_weather_mar2012 := df |}).

(** Lines 245-248 *)
Definition drop_null_columns (data : DataFrame) : result DataFrame :=
  let null_columns :=
    List.filter
      (fun col => match get_column col data with
                  | Some c => (0 <? null_count c)%nat
                  | None => false
                  end)
      (columns data) in
  Polars.drop null_columns data.

Definition rename_mapping : list (string * string) :=
  [ ("Longitude (x)", "Longitude");
    ("Latitude (y)", "Latitude");
    ("Station Name", "Station_Name");
    ("Climate ID", "Climate_ID");
    ("Date/Time (LST)", "Date_Time");
    ("Temp (°C)", "Temperature_C");
    ("Dew Point Temp (°C)", "Dew_Point_Temp_C");
    ("Rel Hum (%)", "Relative_Humidity");
    ("Wind Spd (km/h)", "Wind_Speed_kmh");
    ("Visibility (km)", "Visibility_km");
    ("Stn Press (kPa)", "Station_Pressure_kPa");
    ("Weather", "Weather") ].

(** Lines 222-242.  The statement of line 241 assigns the lowercased
    names to [pl_weather_mar2012.columns], not to [data.columns]. *)
Definition pl_clean_data (data : DataFrame) : M DataFrame :=
  bindM (liftM (drop_null_columns data)) (fun data =>
  bindM (liftM (Polars.drop ["Year"; "Month"; "Day"; "Time (LST)"] data)) (fun data =>
  bindM (liftM (Polars.rename rename_mapping data)) (fun data =>
  bindM get_global (fun mar =>
  bindM (liftM (Polars.set_columns (map lower (columns mar)) mar)) (fun mar' =>
  bindM (set_global mar') (fun _ =>
  ret data)))))).

(** What the sibling [clean_data] of lines 178-200 does with its last
    statement on the columns, [data.columns = data.columns.str.lower()],
    said of a polars frame. *)
Definition lowercased (data : DataFrame) : list string :=
  map lower (columns data).

(** A month as the weather service sends it, cut to one row: the columns
    the script drops and renames, and a flag column that is empty. *)
Definition one_row : column := StrCol [Some "x"].

Definition sample_month : DataFrame :=
  [ ("Longitude (x)", one_row); ("Latitude (y)", one_row);
    ("Station Name", one_row); ("Climate ID", one_row);
    ("Date/Time (LST)", one_row); ("Year", one_row); ("Month", one_row);
    ("Day", one_row); ("Time (LST)", one_row); ("Temp (°C)", one_row);
    ("Temp Flag", StrCol [None]); ("Dew Point Temp (°C)", one_row);
    ("Rel Hum (%)", one_row); ("Wind Spd (km/h)", one_row);
    ("Visibility (km)", one_row); ("Stn Press (kPa)", one_row);
    ("Weather", one_row) ].

(** A state in which the module-level frame has capitals in its names,
    as [pl_weather_mar2012] has until the cell of lines 126-143 has run. *)
Definition sample_globals : globals :=
  {| pl_weather_mar2012 :=
       [ ("Date/Time (LST)", one_row); ("Temp (°C)", one_row);
         ("Weather", one_row) ] |}.

Section Download.

(** What [pl.read_csv(url, try_parse_dates=True, null_values=[...])]
    answers for the address of a year and a month: the frame it has
    read, or the error of a request or of a file it could not read. *)
Variable read_csv : nat -> nat -> result DataFrame.

(** Lines 214-219 *)
Definition pl_download_weather_month (year month : nat) : M DataFrame :=
  bindM (liftM (read_csv year month)) (fun weather_data =>
  bindM (pl_clean_data weather_data) (fun weather_data_clean =>
  ret weather_data_clean)).

End Download.

End Chapter5.

(** ** Chapter 2: the most common complaint types *)

Module Chapter2.

(** A value of the ['Complaint Type'] column; [None] is a missing value. *)
Definition key := option string.

(** A row of a value-counts table. *)
Definition row := (key * nat)%type.

Definition key_eqb (a b : key) : bool :=
  match a, b with
  | Some x, Some y => String.eqb x y
  | None, None => true
  | _, _ => false
  end.

Definition row_eqb (a b : row) : bool :=
  key_eqb (fst a) (fst b) && Nat.eqb (snd a) (snd b).

Definition count (v : key) (values : list key) : nat :=
  length (filter (key_eqb v) values).

Definition count_row (r : row) (rows : list row) : nat :=
  length (filter (row_eqb r) rows).

Definition is_some (v : key) : bool :=
  match v with Some _ => true | None => false end.

Fixpoint nodupb (l : list key) : bool :=
  match l with
  | [] => true
  | a :: t => negb (existsb (key_eqb a) t) && nodupb t
  end.

(** The values a value-counts table counts: pandas leaves the missing
    ones out ([dropna=True] is the default), polars counts them as a value
    of their own. *)
Definition counted (dropna : bool) (values : list key) : list key :=
  if dropna then filter is_some values else values.

(** Neither library promises an order for the rows of an unsorted
    value-counts table, nor for rows of equal count after sorting by
    count.  So the tables are described, not computed: [rows] is a
    value-counts table of [values] when it has one row for each counted
    value, with the number of its occurrences. *)
Definition is_value_counts (dropna : bool) (values : list key) (rows : list row)
  : bool :=
  let vals := counted dropna values in
  nodupb (map fst rows)
  && forallb (fun r => Nat.eqb (snd r) (count (fst r) vals)
                       && Nat.ltb 0 (snd r)) rows
  && forallb (fun v => existsb (key_eqb v) (map fst rows)) vals.

Fixpoint sorted_desc (rows : list row) : bool :=
  match rows with
  | a :: (b :: _) as t => Nat.leb (snd b) (snd a) && sorted_desc t
  | _ => true
  end.

Definition is_perm (l1 l2 : list row) : bool :=
  forallb (fun r => Nat.eqb (count_row r l1) (count_row r l2)) (l1 ++ l2).

(** [rows'] is [rows] sorted by count, largest first. *)
Definition is_sort_desc (rows rows' : list row) : bool :=
  is_perm rows rows' && sorted_desc rows'.

(** Lines 54-55:
    [complaint_counts = complaints["Complaint Type"].value_counts()],
    which counts and then sorts by count, and [complaint_counts[:10]]. *)
Definition complaint_counts (values : list key) (out : list row) : Prop :=
  exists rows, is_value_counts true values rows = true
               /\ is_sort_desc rows out = true.

Definition complaint_counts_top (values : list key) (top : list row) : Prop :=
  exists out, complaint_counts values out /\ top = firstn 10 out.

(** Lines 59-65:
    [.to_series().value_counts().sort("count", descending=True).head(10)] *)
Definition pl_most_complaints (values : list key) (top : list row) : Prop :=
  exists rows out, is_value_counts false values rows = true
                   /\ is_sort_desc rows out = true
                   /\ top = firstn 10 out.

(** One table that fits the descriptions: rows in order of first
    appearance, sorted by insertion. *)
Fixpoint distinct (values : list key) : list key :=
  match values with
  | [] => []
  | v :: t => v :: filter (fun w => negb (key_eqb v w)) (distinct t)
  end.

Definition value_counts (dropna : bool) (values : list key) : list row :=
  let vals := counted dropna values in
  map (fun v => (v, count v vals)) (distinct vals).

Fixpoint insert_desc (r : row) (rows : list row) : list row :=
  match rows with
  | [] => [r]
  | a :: t => if Nat.leb (snd a) (snd r) then r :: rows
              else a :: insert_desc r t
  end.

Definition sort_desc (rows : list row) : list row :=
  fold_right insert_desc [] rows.


End Chapter2.

(** ** Chapter 8: timestamps *)

Module Chapter8.
Local Open Scope Z_scope.

(** An [Int64] value is an integer of the 64-bit two's-complement
    range. *)
Definition int64 (z : Z) : Prop := - 2 ^ 63 <= z < 2 ^ 63.

Definition wrap64 (z : Z) : Z := (z + 2 ^ 63) mod 2 ^ 64 - 2 ^ 63.

(** Lines 56-59: [pl.col("atime") * 1000].  Polars multiplies [Int64]
    columns with wrap-around. *)
Definition times_1000 (atime : Z) : Z := wrap64 (atime * 1000).

(** Lines 60-63: [.cast(pl.Datetime("ms"))] reads the integer as the
    number of milliseconds since the epoch.  An instant is written as its
    distance from the epoch in nanoseconds. *)
Definition cast_datetime_ms (ms : Z) : Z := ms * 1000000.

Definition pl_atime (atime : Z) : Z := cast_datetime_ms (times_1000 atime).

(** What [pd.to_datetime(s, unit="s")] makes of a number of seconds:
    an instant of [datetime64[ns]], written as its distance from the
    epoch in nanoseconds; [NaT], the missing instant; or the exception
    [OutOfBoundsDatetime]. *)
Inductive converted :=
| Instant (ns : Z)
| NaT
| OutOfBoundsDatetime.

(** Lines 50-51.  The least 64-bit integer stands for [NaT] before and
    after the conversion; any other number of seconds is converted when
    its nanoseconds fit, and raises when they do not. *)
Definition to_datetime_s (atime : Z) : converted :=
  if atime =? - 2 ^ 63 then NaT
  else
    let ns := atime * 1000000000 in
    if (- 2 ^ 63 <? ns) && (ns <? 2 ^ 63) then Instant ns
    else OutOfBoundsDatetime.

End Chapter8.

(** ** The files the chapters read and write *)

Module Boundary.

Inductive chapter := Ch1 | Ch2 | Ch3 | Ch5 | Ch6 | Ch7 | Ch8.

Inductive event :=
| ReadCsv (path : string)
| HttpGet (url : string)
| WriteCsv (path : string).

Definition decimal (n : nat) : string :=
  NilEmpty.string_of_uint (Nat.to_uint n).

(** [url_template.format(year=year, month=month)] *)
Definition url (year month : nat) : string :=
  "http://climate.weather.gc.ca/climate_data/bulk_data_e.html?format=csv&stationID=5415&Year="
  ++ decimal year ++ "&Month=" ++ decimal month
  ++ "&timeframe=1&submit=Download+Data".

(** [range(1, 13)] *)
Definition months : list nat := seq 1 12.

(** What each script does at the boundary, in the order of its
    statements. *)
Definition trace (c : chapter) : list event :=
  match c with
  | Ch1 =>
      [ ReadCsv "../data/bikes.csv";                 (* line 15 *)
        ReadCsv "../data/bikes.csv";                 (* line 18 *)
        ReadCsv "../data/bikes.csv";                 (* line 34 *)
        ReadCsv "../data/bikes.csv" ]                (* line 45 *)
  | Ch2 =>
      [ ReadCsv "../data/311-service-requests.csv";  (* line 10 *)
        ReadCsv "../data/311-service-requests.csv" ] (* line 18 *)
  | Ch3 =>
      [ ReadCsv "../data/311-service-requests.csv";  (* line 20 *)
        ReadCsv "../data/311-service-requests.csv" ] (* line 24 *)
  | Ch5 =>
      [ ReadCsv "../data/weather_2012.csv";          (* line 18 *)
        ReadCsv "../data/weather_2012.csv";          (* line 23 *)
        HttpGet (url 2012 3);                        (* line 39 *)
        HttpGet (url 2012 3);                        (* line 49 *)
        HttpGet (url 2012 1) ]                       (* line 252 *)
      ++ map (fun i => HttpGet (url 2012 i)) months  (* line 256 *)
      ++ map (fun i => HttpGet (url 2012 i)) months  (* line 261 *)
      ++ [ WriteCsv "../data/weather_2012.csv";      (* line 267 *)
           WriteCsv "../data/pl_weather_2012.csv" ]  (* line 270 *)
  | Ch6 =>
      [ ReadCsv "../data/weather_2012.csv";          (* line 15 *)
        ReadCsv "../data/weather_2012.csv" ]         (* line 21 *)
  | Ch7 =>
      [ ReadCsv "../data/311-service-requests.csv";  (* line 18 *)
        ReadCsv "../data/311-service-requests.csv";  (* line 22 *)
        ReadCsv "../data/311-service-requests.csv";  (* line 54 *)
        ReadCsv "../data/311-service-requests.csv";  (* line 60 *)
        ReadCsv "../data/311-service-requests.csv";  (* line 165 *)
        ReadCsv "../data/311-service-requests.csv" ] (* line 193 *)
  | Ch8 =>
      [ ReadCsv "../data/popularity-contest";        (* line 13 *)
        ReadCsv "../data/popularity-contest";        (* line 21 *)
        ReadCsv "../data/popularity-contest";        (* line 24 *)
        ReadCsv "../data/popularity-contest" ]       (* line 29 *)
  end.

Definition chapters : list chapter := [Ch1; Ch2; Ch3; Ch5; Ch6; Ch7; Ch8].

Definition chapter_eqb (a b : chapter) : bool :=
  match a, b with
  | Ch1, Ch1 | Ch2, Ch2 | Ch3, Ch3 | Ch5, Ch5
  | Ch6, Ch6 | Ch7, Ch7 | Ch8, Ch8 => true
  | _, _ => false
  end.

Definition is_write (e : event) : bool :=
  match e with WriteCsv _ => true | _ => false end.

Definition reads (c : chapter) : list string :=
  flat_map (fun e => match e with ReadCsv p => [p] | _ => [] end) (trace c).

Definition writes (c : chapter) : list string :=
  flat_map (fun e => match e with WriteCsv p => [p] | _ => [] end) (trace c).

End Boundary.

(** ** Chapter 6: the median temperature of each month *)

Module Chapter6.
Import Frame.
Local Open Scope Z_scope.

(** A naive timestamp; [tod] is the time of day in nanoseconds. *)
Record datetime := { year : Z; month : Z; day : Z; tod : Z }.

Definition ns_per_day : Z := 86400 * 1000000000.

Definition leap (y : Z) : bool :=
  ((y mod 4 =? 0) && negb (y mod 100 =? 0)) || (y mod 400 =? 0).

Definition days_in_month (y m : Z) : Z :=
  if m =? 2 then (if leap y then 29 else 28)
  else if (m =? 4) || (m =? 6) || (m =? 9) || (m =? 11) then 30
  else 31.

Definition valid (d : datetime) : bool :=
  (1 <=? month d) && (month d <=? 12)
  && (1 <=? day d) && (day d <=? days_in_month (year d) (month d))
  && (0 <=? tod d) && (tod d <? ns_per_day).

(** Earlier than, field by field. *)
Definition ltb (a b : datetime) : bool :=
  (year a <? year b)
  || ((year a =? year b)
      && ((month a <? month b)
          || ((month a =? month b)
              && ((day a <? day b)
                  || ((day a =? day b) && (tod a <? tod b)))))).

Definition leb (a b : datetime) : bool := negb (ltb b a).

Definition eqb (a b : datetime) : bool :=
  (year a =? year b) && (month a =? month b)
  && (day a =? day b) && (tod a =? tod b).

(** A reading: the [date_time] of a row and its value in the column
    that is aggregated. *)
Definition reading (V : Type) : Type := (datetime * V)%type.

(** The months are numbered through the years, to count how many
    windows a series spans. *)
Definition month_index (d : datetime) : Z := year d * 12 + (month d - 1).

Definition months_spanned (first last : datetime) : nat :=
  Z.to_nat (month_index last - month_index first + 1).

Definition add_month (d : datetime) : datetime :=
  if month d =? 12
  then {| year := year d + 1; month := 1; day := day d; tod := tod d |}
  else {| year := year d; month := month d + 1; day := day d; tod := tod d |}.

Definition sub_month (d : datetime) : datetime :=
  if month d =? 1
  then {| year := year d - 1; month := 12; day := day d; tod := tod d |}
  else {| year := year d; month := month d - 1; day := day d; tod := tod d |}.

Fixpoint is_sorted (ts : list datetime) : bool :=
  match ts with
  | a :: (b :: _) as t => leb a b && is_sorted t
  | _ => true
  end.


(** The values of a group in ascending order.  Values that compare
    equal, which [-0.0] and [0.0] do, are left in the order of the rows;
    the libraries may order them otherwise, so a result is to be compared
    with [==]. *)
Fixpoint insert (x : float) (l : list float) : list float :=
  match l with
  | [] => [x]
  | y :: t => if PrimFloat.leb x y then x :: l else y :: insert x t
  end.

Definition sort (l : list float) : list float := fold_right insert [] l.

(** [np.median] of a group without [NaN]: the middle value, or the mean
    of the two middle values, their sum divided by two.  The median of
    no value at all is missing. *)
Definition np_median (l : list float) : option float :=
  let s := sort l in
  let n := length s in
  match n with
  | O => None
  | _ => if Nat.even n
         then Some ((nth (n / 2 - 1) s 0 + nth (n / 2) s 0) / 2)%float
         else Some (nth (n / 2) s 0%float)
  end.

(** polars' [median] is the quantile [0.5] with linear interpolation:
    the middle value, or, between the two middle values, the lower one
    plus half of their distance. *)
Definition linear_interpol (lower upper proportion : float) : float :=
  if PrimFloat.eqb lower upper then lower
  else (proportion * (upper - lower) + lower)%float.

Definition pl_median (l : list float) : option float :=
  let s := sort l in
  let n := length s in
  match n with
  | O => None
  | _ => if Nat.even n
         then Some (linear_interpol (nth (n / 2 - 1) s 0%float)
                      (nth (n / 2) s 0%float) 0.5%float)
         else Some (nth (n / 2) s 0%float)
  end.

(** *** polars: [group_by_dynamic("date_time", every="1mo")]

    The windows start at the first timestamp truncated to its month and
    follow each other month by month; a window holds the rows from its
    lower bound on, up to the next lower bound ([closed="left"]), and is
    labelled by its lower bound.  A window without rows gives no output
    row.  The index column has to be sorted. *)
Definition month_start (d : datetime) : datetime :=
  {| year := year d; month := month d; day := 1; tod := 0 |}.

Fixpoint window_starts (lo : datetime) (n : nat) : list datetime :=
  match n with
  | O => []
  | S k => lo :: window_starts (add_month lo) k
  end.

Definition in_window {V} (lo : datetime) (r : reading V) : bool :=
  leb lo (fst r) && ltb (fst r) (add_month lo).

Definition group_by_dynamic_1mo {V} (agg : list V -> option V)
  (rows : list (reading V)) : result (list (datetime * option V)) :=
  if negb (is_sorted (map fst rows)) then Err InvalidOperationError
  else match rows with
       | [] => Ok []
       | first :: _ =>
           let final := List.last rows first in
           let starts := window_starts (month_start (fst first))
                           (months_spanned (fst first) (fst final)) in
           Ok (flat_map
                 (fun lo => match List.filter (in_window lo) rows with
                            | [] => []
                            | members => [(lo, agg (map snd members))]
                            end)
                 starts)
       end.

(** *** pandas: [resample("M")]

    The bins are labelled by the month ends from the month of the
    earliest timestamp to the month of the latest; a bin holds the rows
    after the end of the day of the label before and up to the end of the
    day of its own label ([closed="right"]).  A bin without rows is kept.
    The members of a bin are taken in row order. *)
Definition month_end (d : datetime) : datetime :=
  {| year := year d; month := month d;
     day := days_in_month (year d) (month d); tod := 0 |}.

Definition end_of_day (d : datetime) : datetime :=
  {| year := year d; month := month d; day := day d; tod := ns_per_day - 1 |}.

Definition next_month_end (label : datetime) : datetime :=
  month_end (add_month label).

Definition prev_month_end (label : datetime) : datetime :=
  month_end (sub_month label).

Fixpoint bin_labels (label : datetime) (n : nat) : list datetime :=
  match n with
  | O => []
  | S k => label :: bin_labels (next_month_end label) k
  end.

Definition in_bin {V} (label : datetime) (r : reading V) : bool :=
  ltb (end_of_day (prev_month_end label)) (fst r)
  && leb (fst r) (end_of_day label).

Definition earliest (first : datetime) (ts : list datetime) : datetime :=
  fold_left (fun m d => if ltb d m then d else m) ts first.

Definition latest (first : datetime) (ts : list datetime) : datetime :=
  fold_left (fun m d => if ltb m d then d else m) ts first.

Definition resample_M {V} (agg : list V -> option V)
  (rows : list (reading V)) : list (datetime * option V) :=
  match rows with
  | [] => []
  | first :: _ =>
      let lo := earliest (fst first) (map fst rows) in
      let hi := latest (fst first) (map fst rows) in
      map (fun label =>
             (label, agg (map snd (List.filter (in_bin label) rows))))
          (bin_labels (month_end lo) (months_spanned lo hi))
  end.

(** Line 42: [weather_2012["temperature_c"].resample("M").apply(np.median)] *)
Definition weather_2012_monthly (rows : list (reading float))
  : list (datetime * option float) :=
  resample_M np_median rows.

(** Lines 48-50 *)
Definition pl_weather_2012_monthly (rows : list (reading float))
  : result (list (datetime * option float)) :=
  group_by_dynamic_1mo pl_median rows.

(** The row of a result labelled [label]. *)
Fixpoint at_label {V} (label : datetime) (out : list (datetime * option V))
  : option (option V) :=
  match out with
  | [] => None
  | (l, v) :: rest => if eqb l label then Some v else at_label label rest
  end.

(** A timestamp on the hour. *)
Definition on_the_hour (y m d h : Z) : datetime :=
  {| year := y; month := m; day := d; tod := h * 3600 * 1000000000 |}.


Definition unsorted_readings : list (reading float) :=
  [ (on_the_hour 2012 2 1 0, 3%float);
    (on_the_hour 2012 1 1 0, 1%float) ].


Definition all_valid (ts : list datetime) : Prop :=
  Forall (fun d => valid d = true) ts.

(** The temperatures of the calendar month of [d]. *)
Definition same_month {V} (d : datetime) (r : reading V) : bool :=
  (year (fst r) =? year d) && (month (fst r) =? month d).

Definition temperatures_of_month {V} (d : datetime) (rows : list (reading V))
  : list V :=
  map snd (List.filter (same_month d) rows).

End Chapter6.

(** ** More of the two libraries *)

Module PandasFrame.
Import Frame.

(** [s.str.contains(pat)] with a literal pattern *)
Definition str_contains (pat : string) (s : Pandas.StrSeries) : Pandas.BoolObj :=
  map (option_map (Polars.contains pat)) s.

(** [s.fillna(v)] on a series of booleans *)
Definition fillna (v : bool) (s : Pandas.BoolObj) : list bool :=
  map (fun c => match c with Some b => b | None => v end) s.

(** [s.str.len()] and [s > n]; a missing length is greater than
    nothing. *)
Definition str_len (s : Pandas.StrSeries) : list (option nat) :=
  map (option_map Text.char_length) s.

Definition gt_scalar (n : nat) (s : list (option nat)) : list bool :=
  map (fun c => match c with Some k => Nat.ltb n k | None => false end) s.

(** [df[name]], and [df[name] == v] for a string [v]: only a string
    equals it. *)
Definition getitem (name : string) (df : DataFrame) : result column :=
  match get_column name df with
  | Some c => Ok c
  | None => Err (ColumnNotFound name)
  end.

Definition eq_str (v : string) (c : column) : list bool :=
  match c with
  | StrCol l => Pandas.eq_scalar v l
  | BoolCol l => map (fun _ => false) l
  end.

(** [df[mask]] with a boolean mask of the height of the frame *)
Definition getitem_mask (mask : list bool) (df : DataFrame) : result DataFrame :=
  if Nat.eqb (length mask) (height df)
  then Ok (map (fun nc => (fst nc, Polars.filter_column mask (snd nc))) df)
  else Err ShapeError.

Definition head_column (n : nat) (c : column) : column :=
  match c with
  | StrCol l => StrCol (firstn n l)
  | BoolCol l => BoolCol (firstn n l)
  end.

(** [df[:n]] *)
Definition iloc_head (n : nat) (df : DataFrame) : DataFrame :=
  map (fun nc => (fst nc, head_column n (snd nc))) df.

(** [df.dropna(axis=1, how="any")] *)
Definition dropna_columns (df : DataFrame) : DataFrame :=
  List.filter (fun nc => Nat.eqb (null_count (snd nc)) 0) df.

(** [df.drop(names, axis=1)]: a name that is no column is a [KeyError]. *)
Definition drop_columns (names : list string) (df : DataFrame)
  : result DataFrame :=
  match find (fun n => negb (mem n (columns df))) names with
  | Some n => Err (ColumnNotFound n)
  | None => Ok (List.filter (fun nc => negb (mem (fst nc) names)) df)
  end.

(** [df.rename(columns=mapping)]: a key that is no column is passed
    over. *)
Definition rename_columns (mapping : list (string * string)) (df : DataFrame)
  : DataFrame :=
  map (fun nc => (match Polars.lookup mapping (fst nc) with
                  | Some n' => n'
                  | None => fst nc
                  end, snd nc)) df.

(** [df.columns = df.columns.map(f)] *)
Definition map_columns (f : string -> string) (df : DataFrame) : DataFrame :=
  map (fun nc => (f (fst nc), snd nc)) df.

End PandasFrame.

Module PolarsFrame.
Import Frame.

(** [df.head(n)] *)
Definition head (n : nat) (df : DataFrame) : DataFrame :=
  map (fun nc => (fst nc, PandasFrame.head_column n (snd nc))) df.

End PolarsFrame.

(** ** Chapter 3: noise complaints by borough *)

Module Chapter3.
Import Frame.

Definition complaint_type : string := "Complaint Type".
Definition borough : string := "Borough".
Definition noise : string := "Noise - Street/Sidewalk".
Definition brooklyn : string := "BROOKLYN".

(** Lines 46-48 *)
Definition is_noise (complaints : DataFrame) : result (list bool) :=
  types <- PandasFrame.getitem complaint_type complaints ;;
  Ok (PandasFrame.eq_str noise types).

Definition in_brooklyn (complaints : DataFrame) : result (list bool) :=
  boroughs <- PandasFrame.getitem borough complaints ;;
  Ok (PandasFrame.eq_str brooklyn boroughs).

Definition noise_in_brooklyn (complaints : DataFrame) : result DataFrame :=
  n <- is_noise complaints ;;
  b <- in_brooklyn complaints ;;
  both <- Pandas.logical_and n b ;;
  rows <- PandasFrame.getitem_mask both complaints ;;
  Ok (PandasFrame.iloc_head 5 rows).

(** Lines 53-55 *)
Definition pl_is_noise : Polars.expr Boolean :=
  Polars.eq_ (Polars.col Utf8 complaint_type) (Polars.lit_str noise).

Definition pl_in_brooklyn : Polars.expr Boolean :=
  Polars.eq_ (Polars.col Utf8 borough) (Polars.lit_str brooklyn).

Definition pl_noise_in_brooklyn (pl_complaints : DataFrame) : result DataFrame :=
  rows <- Polars.filter (Polars.and_ pl_is_noise pl_in_brooklyn) pl_complaints ;;
  Ok (PolarsFrame.head 5 rows).

(** The rows both selections are after. *)
Definition noisy_brooklyn (type_and_borough : option string * option string) : bool :=
  match type_and_borough with
  | (Some t, Some b) => String.eqb t noise && String.eqb b brooklyn
  | _ => false
  end.

(** Lines 89-98.  [pl_noise] is a filter of [pl_complaints]: its
    boroughs are the boroughs of the rows a mask keeps.  The two
    value-counts tables are joined on the borough; a null borough matches
    no row of the other table. *)
Definition pl_noise_boroughs (mask : list bool) (boroughs : list Chapter2.key)
  : list Chapter2.key :=
  Polars.keep mask boroughs.

(** [value_counts(sort=True)] *)
Definition value_counts_sorted (values : list Chapter2.key)
  (out : list Chapter2.row) : Prop :=
  exists rows, Chapter2.is_value_counts false values rows = true
               /\ Chapter2.is_sort_desc rows out = true.

Definition join_key (a b : Chapter2.key) : bool :=
  match a, b with
  | Some x, Some y => String.eqb x y
  | _, _ => false
  end.

(** [left.join(right, on="Borough")]: a row for every pair of rows of
    equal borough, in the order of [left]; [count], [count_right]. *)
Definition join (left right : list Chapter2.row)
  : list (Chapter2.key * nat * nat) :=
  flat_map (fun l =>
              map (fun r => (fst l, snd l, snd r))
                  (List.filter (fun r => join_key (fst l) (fst r)) right))
           left.

(** [pl.col("count") / pl.col("count_right")], as an exact rational; a
    division by zero has no finite value. *)
Definition complaint_ratio (row : Chapter2.key * nat * nat) : option Q :=
  match snd row with
  | O => None
  | S _ => Some (Z.of_nat (snd (fst row)) # Pos.of_nat (snd row))%Q
  end.

End Chapter3.

(** ** Chapter 7, the cells before the function *)

Module Chapter7Cells.
Import Frame.

(** Lines 67-69 *)
Definition rows_with_dashes (requests : DataFrame) : result (list bool) :=
  zips <- Pandas.getitem_str Chapter7.zip requests ;;
  Ok (PandasFrame.fillna false (PandasFrame.str_contains "-" zips)).

(** Lines 83-84 *)
Definition long_zip_codes (requests : DataFrame) : result (list bool) :=
  zips <- Pandas.getitem_str Chapter7.zip requests ;;
  Ok (PandasFrame.gt_scalar 5 (PandasFrame.str_len zips)).

(** Lines 85-98, the pandas statements that change [requests] once it
    has been read. *)
Definition cleaned (requests : DataFrame) : result DataFrame :=
  truncated <- Chapter7.truncate requests ;;
  Chapter7.clear_zero_zips truncated.

(** Lines 71-107, the polars statements that change [pl_requests] once
    it has been read. *)
Definition pl_cleaned (pl_requests : DataFrame) : result DataFrame :=
  dashed <- Chapter7.pl_rows_with_dashes pl_requests ;;
  truncated <- Chapter7.pl_truncate dashed ;;
  Chapter7.pl_clear_zero_zips truncated.

(** A frame of three requests. *)
Definition sample_requests : DataFrame :=
  [ ("Incident Zip",
     StrCol [Some "29616-0759"; Some "00000"; Some "NO CLUE"]);
    ("City", StrCol [Some "GREENVILLE"; None; Some "NEW YORK"]) ].

End Chapter7Cells.

(** ** Chapter 5, the rest of the download *)

Module Chapter5Rest.
Import Frame.

Fixpoint mapM {A B} (f : A -> Chapter5.M B) (l : list A) : Chapter5.M (list B) :=
  match l with
  | [] => Chapter5.ret []
  | a :: rest =>
      Chapter5.bindM (f a) (fun b =>
      Chapter5.bindM (mapM f rest) (fun bs =>
      Chapter5.ret (b :: bs)))
  end.

Section Download.
Variable read_csv : nat -> nat -> result DataFrame.

(** Line 261: [[pl_download_weather_month(2012, i) for i in range(1, 13)]] *)
Definition pl_data_by_month : Chapter5.M (list DataFrame) :=
  mapM (fun i => Chapter5.pl_download_weather_month read_csv 2012 i)
       Boundary.months.

End Download.

(** A pandas frame with its index set apart from the columns. *)
Record PdFrame := { index_name : option string; table : DataFrame }.

(** [s.replace(old, new)]: the occurrences of [old] from left to right,
    none overlapping another.  [skip] counts the characters of an
    occurrence still to pass over. *)
Fixpoint replace_from (old new : string) (skip : nat) (s : string) : string :=
  match s with
  | EmptyString => EmptyString
  | String c s' =>
      match skip with
      | S k => replace_from old new k s'
      | O => if String.prefix old s
             then new ++ replace_from old new (String.length old - 1) s'
             else String c (replace_from old new 0 s')
      end
  end.

(** An empty [old] is not modelled: the script passes none. *)
Definition replace (old new s : string) : string := replace_from old new 0 s.

Definition quote : string := String (ascii_of_nat 34) EmptyString.

Definition weird_start : string := "ï»¿" ++ quote.

Definition weird_letter : string := "Â".

Definition pd_rename_mapping : list (string * string) :=
  [ ("Longitude (x)", "Longitude");
    ("Latitude (y)", "Latitude");
    ("Station Name", "Station_Name");
    ("Climate ID", "Climate_ID");
    ("Temp (°C)", "Temperature_C");
    ("Dew Point Temp (°C)", "Dew_Point_Temp_C");
    ("Rel Hum (%)", "Relative_Humidity");
    ("Wind Spd (km/h)", "Wind_Speed_kmh");
    ("Visibility (km)", "Visibility_km");
    ("Stn Press (kPa)", "Station_Pressure_kPa");
    ("Weather", "Weather") ].

Definition redundant : list string := ["Year"; "Month"; "Day"; "Time (LST)"].

(** Lines 178-200 *)
Definition clean_data (data : PdFrame) : result PdFrame :=
  let cols := PandasFrame.dropna_columns (table data) in
  cols <- PandasFrame.drop_columns redundant cols ;;
  let cols := PandasFrame.map_columns (replace weird_start "") cols in
  let cols := PandasFrame.map_columns (replace weird_letter "") cols in
  let cols := PandasFrame.rename_columns pd_rename_mapping cols in
  let cols := PandasFrame.map_columns Chapter5.lower cols in
  Ok {| index_name := Some "date_time"; table := cols |}.

(** A reader that answers the same month for every address, and a state
    in which the names of the module-level frame are ASCII. *)
Definition sample_read_csv (year month : nat) : result DataFrame :=
  Ok Chapter5.sample_month.

Definition sample_ascii_globals : Chapter5.globals :=
  {| Chapter5.pl_weather_mar2012 :=
       [ ("Date_Time", Chapter5.one_row);
         ("Temperature_C", Chapter5.one_row);
         ("Weather", Chapter5.one_row) ] |}.

(** A month as pandas reads it, cut to one row, with the time as its
    index. *)
Definition sample_frame : PdFrame :=
  {| index_name := Some "Date/Time (LST)";
     table :=
       [ ("Longitude (x)", StrCol [Some "-73.75"]);
         ("Year", StrCol [Some "2012"]); ("Month", StrCol [Some "3"]);
         ("Day", StrCol [Some "1"]); ("Time (LST)", StrCol [Some "00:00"]);
         ("Temp (°C)", StrCol [Some "-5.5"]); ("Temp Flag", StrCol [None]);
         ("Weather", StrCol [Some "Snow"]) ] |}.

End Chapter5Rest.

(** ** Chapter 6, the share of snowy hours *)

Module Chapter6Snow.
Import Frame.

(** An hour of the weather file: its [date_time] and its [weather]. *)
Definition observation := (Chapter6.datetime * string)%type.

(** Lines 26-30 and 35-37: [str.contains("Snow")] as 1.0 and 0.0. *)
Definition is_snowing (rows : list observation) : list (Chapter6.reading Q) :=
  map (fun r => (fst r, if Polars.contains "Snow" (snd r) then 1%Q else 0%Q))
      rows.

Definition sum (l : list Q) : Q := fold_right Qplus 0%Q l.

(** [np.mean] and polars' [mean]; the mean of no value is missing. *)
Definition mean (l : list Q) : option Q :=
  match l with
  | [] => None
  | _ => Some (sum l / inject_Z (Z.of_nat (length l)))%Q
  end.

(** Line 60 *)
Definition snow_by_month (rows : list observation)
  : list (Chapter6.datetime * option Q) :=
  Chapter6.resample_M mean (is_snowing rows).

(** Lines 66-68 *)
Definition pl_snow_by_month (rows : list observation)
  : result (list (Chapter6.datetime * option Q)) :=
  Chapter6.group_by_dynamic_1mo mean (is_snowing rows).

(** Hours of a winter and of a summer month. *)
Definition sample_hours : list observation :=
  [ (Chapter6.on_the_hour 2012 1 1 0, "Snow");
    (Chapter6.on_the_hour 2012 1 1 1, "Fog");
    (Chapter6.on_the_hour 2012 1 2 0, "Snow Showers");
    (Chapter6.on_the_hour 2012 7 1 0, "Clear") ].

End Chapter6Snow.

(** ** Chapter 8, the rows after the epoch *)

Module Chapter8Rest.
Local Open Scope Z_scope.

(** Line 69: [popcon["atime"] > "1970-01-01"], on nanoseconds. *)
Definition after_epoch (ns : Z) : bool := 0 <? ns.

(** Line 76: [pl.col("atime") > pl.datetime(year=1970, month=1, day=1)];
    the two sides are compared as instants. *)
Definition pl_after_epoch (ms : Z) : bool := 0 <? Chapter8.cast_datetime_ms ms.

End Chapter8Rest.

(** * Properties *)

Import Frame.

(** ** Lists, strings and frames *)

Lemma zip_with_map {A B C D} (f : B -> C -> D) (g : A -> B) (h : A -> C)
  (l : list A) :
  Polars.zip_with f (map g l) (map h l) = Some (map (fun x => f (g x) (h x)) l).
Proof.
  induction l as [|a l IH]; simpl.
  - reflexivity.
  - rewrite IH. reflexivity.
Qed.

Lemma take_chars_idem (n : nat) (s : string) :
  Text.take_chars n (Text.take_chars n s) = Text.take_chars n s.
Proof.
  revert n. induction s as [|c s IH]; intros n; simpl.
  - reflexivity.
  - destruct (Text.is_continuation c) eqn:E.
    + simpl. rewrite E, IH. reflexivity.
    + destruct n as [|n]; simpl.
      * reflexivity.
      * rewrite E, IH. reflexivity.
Qed.

Lemma slice_prefix_idem (n : nat) (s : string) :
  Text.slice 0 n (Text.slice 0 n s) = Text.slice 0 n s.
Proof. apply take_chars_idem. Qed.

Lemma get_column_put_same (name : string) (c : column) (df : DataFrame) :
  get_column name (put_column name c df) = Some c.
Proof.
  induction df as [|[n c'] df IH]; simpl.
  - rewrite String.eqb_refl. reflexivity.
  - destruct (String.eqb n name) eqn:E; simpl; rewrite E.
    + reflexivity.
    + exact IH.
Qed.

Lemma get_column_put_other (name other : string) (c : column) (df : DataFrame) :
  String.eqb name other = false ->
  get_column other (put_column name c df) = get_column other df.
Proof.
  intros Hne. induction df as [|[n c'] df IH]; simpl.
  - rewrite Hne. reflexivity.
  - destruct (String.eqb n name) eqn:E; simpl.
    + apply String.eqb_eq in E. subst n. rewrite Hne. reflexivity.
    + rewrite IH. reflexivity.
Qed.

Lemma height_put_column (name : string) (c : column) (df : DataFrame) :
  df <> [] -> col_length c = height df ->
  height (put_column name c df) = height df.
Proof.
  destruct df as [|[n c'] df]; intros Hne Hlen; [congruence|].
  simpl. destruct (String.eqb n name); simpl; auto.
Qed.

Lemma get_column_nonempty (name : string) (df : DataFrame) (c : column) :
  get_column name df = Some c -> df <> [].
Proof.
  destruct df; simpl; congruence.
Qed.

Lemma get_column_map_snd (f : column -> column) (name : string) (df : DataFrame) :
  get_column name (map (fun nc => (fst nc, f (snd nc))) df)
  = option_map f (get_column name df).
Proof.
  induction df as [|[n c] df IH]; simpl.
  - reflexivity.
  - destruct (String.eqb n name); [reflexivity | exact IH].
Qed.

(** Writing a string series of the height of the frame under a name. *)
Lemma with_columns_named_series (name : string) (e : Polars.expr Utf8)
  (df : DataFrame) (l : list (option string)) :
  df <> [] ->
  Polars.eval df e = Ok (Polars.Series l) ->
  length l = height df ->
  Polars.with_columns_named name e df = Ok (put_column name (StrCol l) df).
Proof.
  intros Hne He Hlen. unfold Polars.with_columns_named.
  rewrite He. simpl. destruct df as [|p df]; [congruence|].
  rewrite Hlen, Nat.eqb_refl. reflexivity.
Qed.

(** ** Chapter 7 *)

Lemma setitem_mask_eq_scalar (v : string) (zips : Pandas.StrSeries) :
  Pandas.setitem_mask zips (Pandas.eq_scalar v zips) None
  = Ok (map (fun z => match z with
                      | Some s => if String.eqb s v then None else Some s
                      | None => None
                      end) zips).
Proof.
  induction zips as [|z zips IH]; simpl.
  - reflexivity.
  - fold (Pandas.eq_scalar v zips). rewrite IH. simpl.
    destruct z as [s|]; [destruct (String.eqb s v)|]; reflexivity.
Qed.

Lemma fix_zip_codes_eq (zips : Pandas.StrSeries) :
  Chapter7.fix_zip_codes zips
  = Ok (map (fun z => Chapter7.clear_zero (Chapter7.first5 z)) zips).
Proof.
  unfold Chapter7.fix_zip_codes. rewrite setitem_mask_eq_scalar.
  unfold Pandas.str_slice. rewrite map_map. reflexivity.
Qed.

Lemma clear_zero_first5_idem (z : option string) :
  Chapter7.clear_zero (Chapter7.first5 (Chapter7.clear_zero (Chapter7.first5 z)))
  = Chapter7.clear_zero (Chapter7.first5 z).
Proof.
  destruct z as [s|]; simpl; [|reflexivity].
  destruct (String.eqb (Text.slice 0 5 s) "00000") eqn:E; simpl.
  - reflexivity.
  - rewrite slice_prefix_idem, E. reflexivity.
Qed.

(** The pandas half of the truncation: [fix_zip_codes] returns, and every
    value of what it returns is the first five characters of the value it
    was given at that place, or is missing. *)
Lemma fix_zip_codes_truncates (zips : Pandas.StrSeries) :
  exists fixed,
    Chapter7.fix_zip_codes zips = Ok fixed
    /\ length fixed = length zips
    /\ forall i v, nth_error fixed i = Some (Some v) ->
                   option_map Chapter7.first5 (nth_error zips i)
                   = Some (Some v).
Proof.
  exists (map (fun z => Chapter7.clear_zero (Chapter7.first5 z)) zips).
  split; [apply fix_zip_codes_eq|]. split; [apply length_map|].
  intros i v H. rewrite nth_error_map in H.
  destruct (nth_error zips i) as [z|]; simpl in *; [|discriminate].
  destruct z as [s|]; simpl in *; [|discriminate].
  destruct (String.eqb (Text.slice 0 5 s) "00000"); congruence.
Qed.

(** The polars half misses it, on every frame: the [Incident Zip] column
    of what [pl_fix_zip_codes] returns is the column it was given. *)
Lemma pl_fix_zip_codes_leaves_zip (data : DataFrame) (zips : list (option string)) :
  get_column Chapter7.zip data = Some (StrCol zips) ->
  height data = length zips ->
  exists out,
    Chapter7.pl_fix_zip_codes data Chapter7.zip = Ok out
    /\ get_column Chapter7.zip out = Some (StrCol zips).
Proof.
  intros Hcol Hh. pose proof (get_column_nonempty _ _ _ Hcol) as Hne.
  unfold Chapter7.pl_fix_zip_codes.
  rewrite (with_columns_named_series _ _ _
             (map (option_map (Text.slice 0 5)) zips) Hne).
  2:{ simpl. rewrite Hcol. reflexivity. }
  2:{ rewrite length_map. auto. }
  simpl bind.
  set (data1 := put_column "zip_column" _ data).
  assert (Hcol1 : get_column Chapter7.zip data1 = Some (StrCol zips)).
  { unfold data1. rewrite get_column_put_other; [exact Hcol | reflexivity]. }
  assert (Hh1 : height data1 = length zips).
  { unfold data1. rewrite height_put_column; auto.
    simpl. rewrite length_map. auto. }
  pose proof (get_column_nonempty _ _ _ Hcol1) as Hne1.
  eexists. split.
  - apply (with_columns_named_series _ _ _
             (map (fun z => match Polars.null_eq z (Some "00000") with
                            | Some true => None
                            | _ => z
                            end) zips) Hne1).
    + simpl. rewrite Hcol1. simpl.
      unfold Polars.lift3_when. simpl.
      rewrite zip_with_map. simpl. reflexivity.
    + rewrite length_map. auto.
  - rewrite get_column_put_other; [exact Hcol1 | reflexivity].
Qed.

(** The note of lines 75-77: a missing zip stays missing under
    [str.contains]. *)
Example rows_with_dashes_keep_null :
  Chapter7.test_rows_with_dashes
  = Ok [("dash", StrCol [Some "29616-0759"; None; Some "83"]);
        ("rows_with_dashes", BoolCol [Some true; None; Some false])].
Proof. reflexivity. Qed.

(** C1 (the polars half, at a nine-digit zip code): [pl_fix_zip_codes]
    returns a frame whose [Incident Zip] is still the ten characters it
    was given, not their first five; the truncated and cleared values were
    written to a new column called [zip_column]. *)
Theorem pl_fix_zip_codes_keeps_long_zip :
  Chapter7.pl_fix_zip_codes
    [("Incident Zip", StrCol [Some "29616-0759"])] "Incident Zip"
  = Ok [("Incident Zip", StrCol [Some "29616-0759"]);
        ("zip_column", StrCol [Some "29616-0759"])]
  /\ Chapter7.first5 (Some "29616-0759") = Some "29616".
Proof.
  split; reflexivity.
Qed.

(** C10: [fix_zip_codes] is idempotent.  It returns a series, and given
    that series again it returns it unchanged. *)
Theorem fix_zip_codes_idempotent (zips : Pandas.StrSeries) :
  exists fixed,
    Chapter7.fix_zip_codes zips = Ok fixed
    /\ Chapter7.fix_zip_codes fixed = Ok fixed.
Proof.
  exists (map (fun z => Chapter7.clear_zero (Chapter7.first5 z)) zips).
  split; [apply fix_zip_codes_eq|].
  rewrite fix_zip_codes_eq, map_map. f_equal.
  apply map_ext. intros z. apply clear_zero_first5_idem.
Qed.

Lemma nth_error_combine_seq {A} (h : list A) (a j : nat) :
  nth_error (combine (seq a (length h)) h) j
  = option_map (fun n => (a + j, n)) (nth_error h j).
Proof.
  revert a j. induction h as [|x h IH]; intros a j; simpl.
  - destruct j; reflexivity.
  - destruct j as [|j]; simpl.
    + rewrite Nat.add_0_r. reflexivity.
    + rewrite IH. rewrite Nat.add_succ_r. reflexivity.
Qed.

Lemma cell_at_read_with (field : string -> option string -> option string)
  (csv : Csv.RawCsv) (i j : nat) (name : string) (r : list string) :
  nth_error (Csv.header csv) j = Some name ->
  nth_error (Csv.records csv) i = Some r ->
  Csv.cell_at (Csv.read_with field csv) j i = Some (field name (nth_error r j)).
Proof.
  intros Hh Hr. unfold Csv.cell_at, Csv.read_with.
  rewrite nth_error_map, nth_error_combine_seq, Hh. simpl.
  rewrite nth_error_map, Hr. reflexivity.
Qed.

Lemma clear_zero_zips_eq (requests : DataFrame) (zips : list (option string)) :
  get_column Chapter7.zip requests = Some (StrCol zips) ->
  Chapter7.clear_zero_zips requests
  = Ok (put_column Chapter7.zip (StrCol (map Chapter7.clear_zero zips)) requests).
Proof.
  intros Hcol. unfold Chapter7.clear_zero_zips, Pandas.getitem_str.
  rewrite Hcol. simpl. rewrite setitem_mask_eq_scalar. reflexivity.
Qed.

Lemma pl_clear_zero_zips_eq (pl_requests : DataFrame) (zips : list (option string)) :
  get_column Chapter7.zip pl_requests = Some (StrCol zips) ->
  height pl_requests = length zips ->
  Chapter7.pl_clear_zero_zips pl_requests
  = Ok (put_column Chapter7.zip (StrCol (map Chapter7.clear_zero zips)) pl_requests).
Proof.
  intros Hcol Hh. pose proof (get_column_nonempty _ _ _ Hcol) as Hne.
  unfold Chapter7.pl_clear_zero_zips, Polars.with_columns.
  apply with_columns_named_series; auto.
  - simpl. rewrite Hcol. simpl. unfold Polars.lift3_when. simpl.
    rewrite zip_with_map. simpl. do 2 f_equal.
    apply map_ext. intros [z|]; simpl; [|reflexivity].
    destruct (String.eqb z "00000"); reflexivity.
  - rewrite length_map. auto.
Qed.

(** The polars statements of lines 91 and 102-107, which the function was
    made from, do truncate and clear the column, to the very values
    [fix_zip_codes] returns. *)
Lemma pl_cells_fix_zip_codes (pl_requests : DataFrame)
  (zips : list (option string)) :
  get_column Chapter7.zip pl_requests = Some (StrCol zips) ->
  height pl_requests = length zips ->
  exists out fixed,
    (truncated <- Chapter7.pl_truncate pl_requests ;;
     Chapter7.pl_clear_zero_zips truncated) = Ok out
    /\ Chapter7.fix_zip_codes zips = Ok fixed
    /\ get_column Chapter7.zip out = Some (StrCol fixed).
Proof.
  intros Hcol Hh. pose proof (get_column_nonempty _ _ _ Hcol) as Hne.
  unfold Chapter7.pl_truncate, Polars.with_columns.
  rewrite (with_columns_named_series _ _ _
             (map Chapter7.first5 zips) Hne).
  2:{ simpl. rewrite Hcol. reflexivity. }
  2:{ rewrite length_map. auto. }
  simpl bind. simpl Polars.output_name.
  rewrite (pl_clear_zero_zips_eq _ (map Chapter7.first5 zips)).
  2:{ apply get_column_put_same. }
  2:{ rewrite height_put_column; auto; simpl; rewrite length_map; auto. }
  eexists. eexists. split; [reflexivity|]. split; [apply fix_zip_codes_eq|].
  rewrite get_column_put_same, map_map. reflexivity.
Qed.

(** C3: read with the sentinel list, a field whose text is one of
    ["NO CLUE"], ["N/A"] and ["0"] is a missing value of the frame, in
    pandas and in polars, whatever the column; and the statements that
    follow put a missing value wherever [Incident Zip] is ["00000"],
    leaving the other values of the column as they are. *)
Theorem sentinels_and_zero_zips_become_missing :
  (forall (infer : string -> string -> option string) (csv : Csv.RawCsv)
          (i j : nat) (name : string) (r : list string) (raw : string),
      nth_error (Csv.header csv) j = Some name ->
      nth_error (Csv.records csv) i = Some r ->
      nth_error r j = Some raw ->
      In raw Chapter7.na_values ->
      Csv.cell_at (Chapter7.requests infer csv) j i = Some None
      /\ Csv.cell_at (Chapter7.pl_requests infer csv) j i = Some None)
  /\ (forall (requests : DataFrame) (zips : list (option string)),
      get_column Chapter7.zip requests = Some (StrCol zips) ->
      exists out,
        Chapter7.clear_zero_zips requests = Ok out
        /\ get_column Chapter7.zip out
           = Some (StrCol (map Chapter7.clear_zero zips)))
  /\ (forall (pl_requests : DataFrame) (zips : list (option string)),
      get_column Chapter7.zip pl_requests = Some (StrCol zips) ->
      height pl_requests = length zips ->
      exists out,
        Chapter7.pl_clear_zero_zips pl_requests = Ok out
        /\ get_column Chapter7.zip out
           = Some (StrCol (map Chapter7.clear_zero zips))).
Proof.
  split; [|split].
  - intros infer csv i j name r raw Hh Hr Hf Hin.
    unfold Chapter7.requests, Chapter7.pl_requests, Csv.pd_read_csv, Csv.pl_read_csv.
    rewrite !(cell_at_read_with _ _ _ _ _ _ Hh Hr), Hf.
    unfold Chapter7.na_values in Hin. simpl in Hin.
    destruct Hin as [<-|[<-|[<-|[]]]]; split; reflexivity.
  - intros requests zips Hcol. eexists. split.
    + apply clear_zero_zips_eq. exact Hcol.
    + apply get_column_put_same.
  - intros pl_requests zips Hcol Hh. eexists. split.
    + apply pl_clear_zero_zips_eq; eassumption.
    + apply get_column_put_same.
Qed.

(** At a file with the three sentinels and a zero zip code. *)
Lemma sentinels_and_zero_zips_witness :
  (Csv.cell_at
     (Chapter7.requests (fun _ raw => Some raw)
        {| Csv.header := ["Incident Zip"; "City"];
           Csv.records := [["0"; "NO CLUE"]; ["10001"; "N/A"]] |}) 1 1
   = Some None
   /\ Csv.cell_at
        (Chapter7.pl_requests (fun _ raw => Some raw)
           {| Csv.header := ["Incident Zip"; "City"];
              Csv.records := [["0"; "NO CLUE"]; ["10001"; "N/A"]] |}) 1 1
      = Some None)
  /\ (exists out,
        Chapter7.clear_zero_zips [("Incident Zip", StrCol [Some "00000"; Some "10001"])]
        = Ok out
        /\ get_column Chapter7.zip out = Some (StrCol [None; Some "10001"]))
  /\ (exists out,
        Chapter7.pl_clear_zero_zips [("Incident Zip", StrCol [Some "00000"; Some "10001"])]
        = Ok out
        /\ get_column Chapter7.zip out = Some (StrCol [None; Some "10001"])).
Proof.
  destruct sentinels_and_zero_zips_become_missing as [Hread [Hpd Hpl]].
  split; [|split].
  - apply (Hread (fun _ raw => Some raw)
             {| Csv.header := ["Incident Zip"; "City"];
                Csv.records := [["0"; "NO CLUE"]; ["10001"; "N/A"]] |}
             1%nat 1%nat "City" ["10001"; "N/A"] "N/A");
      try reflexivity.
    simpl. auto.
  - apply (Hpd [("Incident Zip", StrCol [Some "00000"; Some "10001"])]
               [Some "00000"; Some "10001"]).
    reflexivity.
  - apply (Hpl [("Incident Zip", StrCol [Some "00000"; Some "10001"])]
               [Some "00000"; Some "10001"]);
      reflexivity.
Defined.

Lemma is_far_eq (zips : Pandas.StrSeries) :
  Chapter7.is_far zips = Ok (map Chapter7.far_zip zips).
Proof.
  unfold Chapter7.is_far, Chapter7.is_close, Pandas.logical_or,
    Pandas.str_startswith, Pandas.fill_bool.
  rewrite map_map, zip_with_map. simpl.
  unfold Pandas.logical_and, Pandas.invert, Pandas.notnull, Pandas.astype_bool.
  rewrite !map_map, zip_with_map. f_equal.
  apply map_ext. intros [z|]; simpl; [|reflexivity].
  destruct (String.prefix "0" z), (String.prefix "1" z); reflexivity.
Qed.

Lemma pl_is_far_eval (pl_requests : DataFrame) (zips : list (option string)) :
  get_column Chapter7.zip pl_requests = Some (StrCol zips) ->
  exists mask,
    Polars.eval pl_requests Chapter7.pl_is_far = Ok (Polars.Series mask)
    /\ map Polars.selected mask = map Chapter7.far_zip zips.
Proof.
  intros Hcol. unfold Chapter7.pl_is_far, Chapter7.pl_is_close.
  simpl. rewrite Hcol. simpl. rewrite zip_with_map. simpl.
  rewrite map_map, zip_with_map.
  eexists. split; [reflexivity|].
  rewrite map_map. apply map_ext. intros [z|]; simpl; [|reflexivity].
  destruct (String.prefix "0" z), (String.prefix "1" z); reflexivity.
Qed.

(** C7: on every [Incident Zip] column the pandas mask [is_far] and the
    rows the polars filter [pl_is_far] selects are the same, namely the
    rows whose zip is there and starts with neither 0 nor 1; and so
    [zips[is_far]] and [pl_requests.filter(pl_is_far).select("Incident Zip")]
    hold the same values. *)
Theorem far_zip_selections_agree (pl_requests : DataFrame)
  (zips : list (option string)) :
  get_column Chapter7.zip pl_requests = Some (StrCol zips) ->
  height pl_requests = length zips ->
  Chapter7.is_far zips = Ok (map Chapter7.far_zip zips)
  /\ Polars.filter_mask pl_requests Chapter7.pl_is_far
     = Ok (map Chapter7.far_zip zips)
  /\ Chapter7.pl_far_zips pl_requests
     = Ok [(Chapter7.zip,
            StrCol (Polars.keep (map Chapter7.far_zip zips) zips))].
Proof.
  intros Hcol Hh.
  destruct (pl_is_far_eval _ _ Hcol) as [mask [He Hm]].
  assert (Hmask : Polars.filter_mask pl_requests Chapter7.pl_is_far
                  = Ok (map Chapter7.far_zip zips)).
  { unfold Polars.filter_mask. rewrite He. simpl.
    rewrite Hm, length_map, Hh, Nat.eqb_refl. reflexivity. }
  split; [apply is_far_eq|]. split; [exact Hmask|].
  unfold Chapter7.pl_far_zips, Polars.filter. rewrite Hmask. simpl.
  unfold Polars.select.
  rewrite (get_column_map_snd
             (Polars.filter_column (map Chapter7.far_zip zips))), Hcol.
  reflexivity.
Qed.

(** At a column with a zip of Texas, two of New York and a missing one. *)
Lemma far_zip_selections_witness :
  Chapter7.is_far [Some "77056"; Some "10001"; None; Some "00083"]
  = Ok [true; false; false; false]
  /\ Polars.filter_mask
       [("Incident Zip", StrCol [Some "77056"; Some "10001"; None; Some "00083"])]
       Chapter7.pl_is_far
     = Ok [true; false; false; false]
  /\ Chapter7.pl_far_zips
       [("Incident Zip", StrCol [Some "77056"; Some "10001"; None; Some "00083"])]
     = Ok [("Incident Zip", StrCol [Some "77056"])].
Proof.
  apply (far_zip_selections_agree
           [("Incident Zip", StrCol [Some "77056"; Some "10001"; None; Some "00083"])]
           [Some "77056"; Some "10001"; None; Some "00083"]);
    reflexivity.
Defined.

(** ** Chapter 5 *)

Lemma columns_set_columns (names : list string) (df out : DataFrame) :
  Polars.set_columns names df = Ok out ->
  columns out = names /\ map snd out = map snd df.
Proof.
  unfold Polars.set_columns.
  destruct (Nat.eqb (length names) (length df)) eqn:El; simpl; [|discriminate].
  destruct (first_duplicate names); [discriminate|].
  intros H. injection H as <-. apply Nat.eqb_eq in El.
  unfold columns. split.
  - clear - El. revert df El.
    induction names as [|n names IH]; intros [|p df] El; simpl in *;
      try discriminate; try reflexivity.
    f_equal. apply IH. congruence.
  - clear - El. revert df El.
    induction names as [|n names IH]; intros [|p df] El; simpl in *;
      try discriminate; try reflexivity.
    f_equal. apply IH. congruence.
Qed.

(** Whatever frame [pl_clean_data] is given, what it returns is the frame
    after the renaming, its names as the mapping writes them; the
    lowercased names go to the module-level frame. *)
Lemma pl_clean_data_effect (data : DataFrame) (g g' : Chapter5.globals)
  (returned : DataFrame) :
  Chapter5.pl_clean_data data g = Ok (returned, g') ->
  (exists d1 d2,
      Chapter5.drop_null_columns data = Ok d1
      /\ Polars.drop ["Year"; "Month"; "Day"; "Time (LST)"] d1 = Ok d2
      /\ Polars.rename Chapter5.rename_mapping d2 = Ok returned)
  /\ columns (Chapter5.pl_weather_mar2012 g')
     = map Chapter5.lower (columns (Chapter5.pl_weather_mar2012 g)).
Proof.
  unfold Chapter5.pl_clean_data, Chapter5.bindM, Chapter5.liftM,
    Chapter5.get_global, Chapter5.set_global, Chapter5.ret.
  destruct (Chapter5.drop_null_columns data) as [d1|]; [|discriminate].
  destruct (Polars.drop _ d1) as [d2|] eqn:E2; [|discriminate].
  destruct (Polars.rename _ d2) as [d3|] eqn:E3; [|discriminate].
  destruct (Polars.set_columns _ _) as [mar'|] eqn:Eset; [|discriminate].
  intros H. injection H as <- <-. split.
  - exists d1, d2. auto.
  - simpl. apply columns_set_columns in Eset. tauto.
Qed.

(** So every month [pl_download_weather_month] downloads writes to the
    module-level frame once more, whatever the service answers. *)
Lemma pl_download_weather_month_inv
  (read_csv : nat -> nat -> result DataFrame) (year month : nat)
  (g g' : Chapter5.globals) (returned : DataFrame) :
  Chapter5.pl_download_weather_month read_csv year month g
  = Ok (returned, g') ->
  exists weather_data,
    read_csv year month = Ok weather_data
    /\ Chapter5.pl_clean_data weather_data g = Ok (returned, g').
Proof.
  unfold Chapter5.pl_download_weather_month.
  unfold Chapter5.bindM at 1. unfold Chapter5.liftM at 1.
  destruct (read_csv year month) as [weather_data|]; [|discriminate].
  unfold Chapter5.bindM at 1.
  destruct (Chapter5.pl_clean_data weather_data g) as [[d g1]|] eqn:E;
    [|discriminate].
  unfold Chapter5.ret. intros H. injection H as <- <-.
  exists weather_data. auto.
Qed.

Lemma pl_download_weather_month_effect
  (read_csv : nat -> nat -> result DataFrame) (year month : nat)
  (g g' : Chapter5.globals) (returned : DataFrame) :
  Chapter5.pl_download_weather_month read_csv year month g
  = Ok (returned, g') ->
  columns (Chapter5.pl_weather_mar2012 g')
  = map Chapter5.lower (columns (Chapter5.pl_weather_mar2012 g)).
Proof.
  intros H. apply pl_download_weather_month_inv in H.
  destruct H as [weather_data [_ H]].
  apply pl_clean_data_effect in H. tauto.
Qed.

(** C9 (at a month of the weather service): [pl_clean_data] returns the
    frame with the names of the mapping, capitals included, not their
    lowercase forms, and the module-level frame [pl_weather_mar2012] comes
    out of the call with its names changed. *)
Theorem pl_clean_data_lowercases_the_global :
  exists returned g',
    Chapter5.pl_clean_data Chapter5.sample_month Chapter5.sample_globals
    = Ok (returned, g')
    /\ columns returned
       = ["Longitude"; "Latitude"; "Station_Name"; "Climate_ID"; "Date_Time";
          "Temperature_C"; "Dew_Point_Temp_C"; "Relative_Humidity";
          "Wind_Speed_kmh"; "Visibility_km"; "Station_Pressure_kPa"; "Weather"]
    /\ columns returned <> Chapter5.lowercased returned
    /\ columns (Chapter5.pl_weather_mar2012 Chapter5.sample_globals)
       = ["Date/Time (LST)"; "Temp (°C)"; "Weather"]
    /\ columns (Chapter5.pl_weather_mar2012 g')
       = ["date/time (lst)"; "temp (°c)"; "weather"].
Proof.
  eexists. eexists. split; [vm_compute; reflexivity|].
  repeat split; try reflexivity.
  vm_compute. discriminate.
Qed.

(** ** Chapter 8 *)

(** The numbers of seconds pandas converts to an instant. *)
Lemma to_datetime_s_instant (atime ns : Z) :
  Chapter8.to_datetime_s atime = Chapter8.Instant ns ->
  ns = (atime * 1000000000)%Z /\ (- 2 ^ 63 < ns < 2 ^ 63)%Z.
Proof.
  unfold Chapter8.to_datetime_s.
  destruct (atime =? - 2 ^ 63)%Z; [discriminate|].
  destruct ((- 2 ^ 63 <? atime * 1000000000)%Z
            && (atime * 1000000000 <? 2 ^ 63)%Z) eqn:E; [|discriminate].
  intros H. injection H as <-.
  apply andb_true_iff in E. destruct E as [E1 E2].
  apply Z.ltb_lt in E1, E2. auto.
Qed.

Lemma times_1000_exact (atime : Z) :
  (- 2 ^ 63 < atime * 1000000000 < 2 ^ 63)%Z ->
  Chapter8.times_1000 atime = (atime * 1000)%Z.
Proof.
  intros H. unfold Chapter8.times_1000, Chapter8.wrap64.
  change (2 ^ 63)%Z with 9223372036854775808%Z in *.
  change (2 ^ 64)%Z with 18446744073709551616%Z.
  rewrite Z.mod_small; lia.
Qed.

(** C6, as it is written, fails at [2 ^ 62] seconds: the product wraps
    to 0, so polars gives the epoch, and pandas raises.  It fails at the
    least [Int64] too, where the product wraps to 0 and pandas gives
    [NaT]. *)
Lemma timestamp_conversion_wraps :
  (Chapter8.int64 (2 ^ 62)
   /\ Chapter8.times_1000 (2 ^ 62) = 0%Z
   /\ Chapter8.times_1000 (2 ^ 62) <> (2 ^ 62 * 1000)%Z
   /\ Chapter8.pl_atime (2 ^ 62) = 0%Z
   /\ Chapter8.to_datetime_s (2 ^ 62) = Chapter8.OutOfBoundsDatetime)
  /\ (Chapter8.int64 (- 2 ^ 63)
      /\ Chapter8.times_1000 (- 2 ^ 63) = 0%Z
      /\ Chapter8.pl_atime (- 2 ^ 63) = 0%Z
      /\ Chapter8.to_datetime_s (- 2 ^ 63) = Chapter8.NaT).
Proof.
  unfold Chapter8.int64. repeat split; try reflexivity; vm_compute; congruence.
Qed.

(** C6, amended: for every [Int64] number of seconds that
    [pd.to_datetime] converts to an instant, which it does exactly when
    the nanoseconds lie strictly between [- 2 ^ 63] and [2 ^ 63], the
    product by 1000 is exact and the polars [Datetime("ms")] is the
    instant pandas gives. *)
Theorem timestamp_conversion_agrees (atime : Z) :
  Chapter8.int64 atime ->
  ((exists ns, Chapter8.to_datetime_s atime = Chapter8.Instant ns)
   <-> (- 2 ^ 63 < atime * 1000000000 < 2 ^ 63)%Z)
  /\ forall ns,
       Chapter8.to_datetime_s atime = Chapter8.Instant ns ->
       Chapter8.times_1000 atime = (atime * 1000)%Z
       /\ Chapter8.pl_atime atime = ns.
Proof.
  intros _. split.
  - split.
    + intros [ns H]. apply to_datetime_s_instant in H.
      destruct H as [-> H]. exact H.
    + intros H. exists (atime * 1000000000)%Z.
      unfold Chapter8.to_datetime_s.
      destruct (atime =? - 2 ^ 63)%Z eqn:E.
      * apply Z.eqb_eq in E. subst atime. vm_compute in H.
        destruct H as [H _]. discriminate H.
      * destruct H as [H1 H2]. apply Z.ltb_lt in H1, H2.
        rewrite H1, H2. reflexivity.
  - intros ns H. apply to_datetime_s_instant in H. destruct H as [-> H].
    pose proof (times_1000_exact atime H) as Hw.
    split; [exact Hw|].
    unfold Chapter8.pl_atime, Chapter8.cast_datetime_ms. rewrite Hw. lia.
Qed.

(** At the access time of a package in 2012. *)
Lemma timestamp_conversion_witness :
  Chapter8.times_1000 1354000000 = 1354000000000%Z
  /\ Chapter8.pl_atime 1354000000 = 1354000000000000000%Z.
Proof.
  assert (H : Chapter8.int64 1354000000) by (unfold Chapter8.int64; lia).
  apply (proj2 (timestamp_conversion_agrees 1354000000%Z H)
           1354000000000000000%Z).
  reflexivity.
Defined.

(** ** The boundary *)

(** C2, as it is written, fails: Chapter 6 reads the file Chapter 5
    writes. *)
Lemma chapter6_reads_what_chapter5_writes :
  Boundary.Ch6 <> Boundary.Ch5
  /\ In "../data/weather_2012.csv" (Boundary.reads Boundary.Ch6)
  /\ In "../data/weather_2012.csv" (Boundary.writes Boundary.Ch5).
Proof.
  split; [discriminate|]. split; simpl; auto.
Qed.

(** C2, amended: the one file a chapter reads and another chapter writes
    is [../data/weather_2012.csv], written by Chapter 5 and read by
    Chapter 6. *)
Theorem chapters_compose_through_one_file (c1 c2 : Boundary.chapter)
  (path : string) :
  c1 <> c2 ->
  In path (Boundary.reads c1) ->
  In path (Boundary.writes c2) ->
  c1 = Boundary.Ch6 /\ c2 = Boundary.Ch5 /\ path = "../data/weather_2012.csv".
Proof.
  intros Hne Hr Hw.
  destruct c2; simpl in Hw; try contradiction.
  destruct Hw as [<-|[<-|[]]];
    destruct c1; simpl in Hr;
    repeat match goal with
           | H : _ \/ _ |- _ => destruct H
           | H : False |- _ => contradiction
           | H : _ = _ :> string |- _ => discriminate H
           end;
    try congruence; auto.
Qed.

Lemma chapters_compose_witness :
  Boundary.Ch6 = Boundary.Ch6 /\ Boundary.Ch5 = Boundary.Ch5
  /\ "../data/weather_2012.csv" = "../data/weather_2012.csv".
Proof.
  apply (chapters_compose_through_one_file Boundary.Ch6 Boundary.Ch5
           "../data/weather_2012.csv").
  - discriminate.
  - simpl. auto.
  - simpl. auto.
Defined.

(** C8, as it is written, fails: Chapter 5 writes two files, not one. *)
Lemma chapter5_writes_two_files :
  Boundary.writes Boundary.Ch5
  = ["../data/weather_2012.csv"; "../data/pl_weather_2012.csv"]
  /\ ~ (exists path, Boundary.writes Boundary.Ch5 = [path]).
Proof.
  split; [reflexivity|]. intros [path H]. vm_compute in H. discriminate.
Qed.

(** C8, amended: the writes are the last two statements of Chapter 5,
    one CSV file from pandas and one from polars; nothing before them in
    Chapter 5, and nothing in another chapter, writes a file. *)
Theorem only_chapter5_writes_at_its_end :
  (forall c, c <> Boundary.Ch5 -> Boundary.writes c = [])
  /\ exists before,
      Boundary.trace Boundary.Ch5
      = before ++ [Boundary.WriteCsv "../data/weather_2012.csv";
                   Boundary.WriteCsv "../data/pl_weather_2012.csv"]
      /\ forallb (fun e => negb (Boundary.is_write e)) before = true.
Proof.
  split.
  - intros c Hc. destruct c; try reflexivity. congruence.
  - exists (firstn 29 (Boundary.trace Boundary.Ch5)).
    split; vm_compute; reflexivity.
Qed.

Lemma only_chapter5_writes_witness :
  Boundary.writes Boundary.Ch6 = [].
Proof.
  apply (proj1 only_chapter5_writes_at_its_end Boundary.Ch6). discriminate.
Defined.

(** ** Chapter 2 *)

Lemma key_eqb_eq (a b : Chapter2.key) : Chapter2.key_eqb a b = true <-> a = b.
Proof.
  destruct a as [x|], b as [y|]; simpl; split; intros H;
    try discriminate; try reflexivity.
  - apply String.eqb_eq in H. congruence.
  - injection H as ->. apply String.eqb_refl.
Qed.

Lemma row_eqb_eq (a b : Chapter2.row) : Chapter2.row_eqb a b = true <-> a = b.
Proof.
  destruct a as [ka na], b as [kb nb]. unfold Chapter2.row_eqb. simpl.
  rewrite andb_true_iff, key_eqb_eq, Nat.eqb_eq. split.
  - intros [-> ->]. reflexivity.
  - intros H. injection H as -> ->. auto.
Qed.

Lemma row_eq_dec (a b : Chapter2.row) : {a = b} + {a <> b}.
Proof.
  destruct (Chapter2.row_eqb a b) eqn:E.
  - left. apply row_eqb_eq. exact E.
  - right. intros H. apply row_eqb_eq in H. congruence.
Defined.

Lemma count_row_count_occ (r : Chapter2.row) (l : list Chapter2.row) :
  Chapter2.count_row r l = count_occ row_eq_dec l r.
Proof.
  unfold Chapter2.count_row. induction l as [|x l IH]; simpl.
  - reflexivity.
  - destruct (row_eq_dec x r) as [->|Hne].
    + replace (Chapter2.row_eqb r r) with true
        by (symmetry; apply row_eqb_eq; reflexivity).
      simpl. rewrite IH. reflexivity.
    + destruct (Chapter2.row_eqb r x) eqn:E.
      * apply row_eqb_eq in E. congruence.
      * exact IH.
Qed.

Lemma is_perm_Permutation (l1 l2 : list Chapter2.row) :
  Chapter2.is_perm l1 l2 = true -> Permutation l1 l2.
Proof.
  unfold Chapter2.is_perm. rewrite forallb_forall. intros H.
  apply (Permutation_count_occ row_eq_dec). intros x.
  destruct (in_dec row_eq_dec x (l1 ++ l2)) as [Hin|Hnin].
  - specialize (H x Hin). apply Nat.eqb_eq in H.
    rewrite !count_row_count_occ in H. exact H.
  - rewrite !(proj1 (count_occ_not_In row_eq_dec _ x)); auto;
      intros Hin; apply Hnin, in_or_app; auto.
Qed.

Lemma count_pos_In (v : Chapter2.key) (values : list Chapter2.key) :
  0 < Chapter2.count v values -> In v values.
Proof.
  unfold Chapter2.count. intros H.
  destruct (filter (Chapter2.key_eqb v) values) as [|w t] eqn:E;
    [simpl in H; lia|].
  assert (Hw : In w (filter (Chapter2.key_eqb v) values))
    by (rewrite E; left; reflexivity).
  apply filter_In in Hw. destruct Hw as [Hw Heq].
  apply key_eqb_eq in Heq. subst w. exact Hw.
Qed.

Lemma nodupb_NoDup (l : list Chapter2.key) :
  Chapter2.nodupb l = true -> NoDup l.
Proof.
  induction l as [|a l IH]; simpl; intros H.
  - constructor.
  - apply andb_true_iff in H. destruct H as [Ha Hl].
    constructor; [|auto].
    intros Hin. apply negb_true_iff in Ha.
    assert (existsb (Chapter2.key_eqb a) l = true); [|congruence].
    apply existsb_exists. exists a. split; [exact Hin|].
    apply key_eqb_eq. reflexivity.
Qed.

(** What a value-counts table is, in words. *)
Lemma is_value_counts_spec (dropna : bool) (values : list Chapter2.key)
  (rows : list Chapter2.row) :
  Chapter2.is_value_counts dropna values rows = true ->
  NoDup (map fst rows)
  /\ (forall v n, In (v, n) rows ->
                  n = Chapter2.count v (Chapter2.counted dropna values)
                  /\ In v (Chapter2.counted dropna values))
  /\ (forall v, In v (Chapter2.counted dropna values) ->
                In (v, Chapter2.count v (Chapter2.counted dropna values)) rows).
Proof.
  unfold Chapter2.is_value_counts. intros H.
  apply andb_true_iff in H. destruct H as [H H3].
  apply andb_true_iff in H. destruct H as [H1 H2].
  rewrite forallb_forall in H2, H3.
  assert (Hrows : forall v n, In (v, n) rows ->
            n = Chapter2.count v (Chapter2.counted dropna values)
            /\ In v (Chapter2.counted dropna values)).
  { intros v n Hin. specialize (H2 _ Hin). simpl in H2.
    apply andb_true_iff in H2. destruct H2 as [Hn Hpos].
    apply Nat.eqb_eq in Hn. apply Nat.ltb_lt in Hpos.
    split; [exact Hn|]. apply count_pos_In. lia. }
  split; [apply nodupb_NoDup; exact H1|]. split; [exact Hrows|].
  intros v Hv. specialize (H3 _ Hv).
  apply existsb_exists in H3. destruct H3 as [w [Hw Heq]].
  apply key_eqb_eq in Heq. subst w.
  apply in_map_iff in Hw. destruct Hw as [[v' n] [Hfst Hin]].
  simpl in Hfst. subst v'.
  destruct (Hrows _ _ Hin) as [-> _]. exact Hin.
Qed.




Lemma sorted_desc_StronglySorted (rows : list Chapter2.row) :
  Chapter2.sorted_desc rows = true ->
  StronglySorted (fun a b : Chapter2.row => snd b <= snd a) rows.
Proof.
  intros H. apply Sorted_StronglySorted.
  - intros x y z Hxy Hyz. lia.
  - induction rows as [|a rows IH]; [constructor|].
    destruct rows as [|b rows].
    + constructor; constructor.
    + simpl in H. apply andb_true_iff in H. destruct H as [Hab H].
      apply Nat.leb_le in Hab.
      constructor; [apply IH; exact H | constructor; exact Hab].
Qed.



(** The tables the descriptions speak of exist, for every column. *)
Lemma In_distinct (v : Chapter2.key) (l : list Chapter2.key) :
  In v (Chapter2.distinct l) <-> In v l.
Proof.
  induction l as [|a l IH]; simpl; [tauto|].
  rewrite filter_In, IH, negb_true_iff. split.
  - tauto.
  - intros [H|H]; [auto|].
    destruct (Chapter2.key_eqb a v) eqn:E; [|auto].
    apply key_eqb_eq in E. auto.
Qed.

Lemma existsb_key_false (v : Chapter2.key) (l : list Chapter2.key) :
  existsb (Chapter2.key_eqb v) l = false <-> ~ In v l.
Proof.
  rewrite <- not_true_iff_false, existsb_exists. split.
  - intros H Hin. apply H. exists v. split; [exact Hin|].
    apply key_eqb_eq. reflexivity.
  - intros H [w [Hw E]]. apply key_eqb_eq in E. subst w. auto.
Qed.

Lemma nodupb_filter (f : Chapter2.key -> bool) (l : list Chapter2.key) :
  Chapter2.nodupb l = true -> Chapter2.nodupb (filter f l) = true.
Proof.
  induction l as [|a l IH]; simpl; [auto|].
  rewrite andb_true_iff, negb_true_iff, existsb_key_false.
  intros [Ha Hl]. destruct (f a); simpl; [|auto].
  rewrite andb_true_iff, negb_true_iff, existsb_key_false.
  split; [|auto]. rewrite filter_In. tauto.
Qed.

Lemma nodupb_distinct (l : list Chapter2.key) :
  Chapter2.nodupb (Chapter2.distinct l) = true.
Proof.
  induction l as [|a l IH]; simpl; [reflexivity|].
  rewrite andb_true_iff, negb_true_iff, existsb_key_false. split.
  - rewrite filter_In, negb_true_iff. intros [_ E].
    rewrite (proj2 (key_eqb_eq a a) eq_refl) in E. discriminate.
  - apply nodupb_filter. exact IH.
Qed.

Lemma In_count_pos (v : Chapter2.key) (l : list Chapter2.key) :
  In v l -> 0 < Chapter2.count v l.
Proof.
  intros H. unfold Chapter2.count.
  assert (Hin : In v (filter (Chapter2.key_eqb v) l)).
  { apply filter_In. split; [exact H|]. apply key_eqb_eq. reflexivity. }
  destruct (filter (Chapter2.key_eqb v) l); [contradiction | simpl; lia].
Qed.

Lemma value_counts_is_value_counts (dropna : bool) (values : list Chapter2.key) :
  Chapter2.is_value_counts dropna values (Chapter2.value_counts dropna values)
  = true.
Proof.
  unfold Chapter2.is_value_counts, Chapter2.value_counts.
  set (vals := Chapter2.counted dropna values).
  rewrite map_map. simpl. rewrite map_id.
  rewrite !andb_true_iff. repeat split.
  - apply nodupb_distinct.
  - apply forallb_forall. intros r Hr.
    apply in_map_iff in Hr. destruct Hr as [v [<- Hv]]. simpl.
    rewrite Nat.eqb_refl. apply Nat.ltb_lt, In_count_pos, In_distinct, Hv.
  - apply forallb_forall. intros v Hv.
    apply existsb_exists. exists v. split.
    + apply In_distinct. exact Hv.
    + apply key_eqb_eq. reflexivity.
Qed.

Lemma count_row_insert_desc (r x : Chapter2.row) (l : list Chapter2.row) :
  Chapter2.count_row r (Chapter2.insert_desc x l)
  = Chapter2.count_row r (x :: l).
Proof.
  unfold Chapter2.count_row. induction l as [|a l IH]; simpl; [reflexivity|].
  destruct (Nat.leb (snd a) (snd x)); simpl; [reflexivity|].
  simpl in IH.
  destruct (Chapter2.row_eqb r a), (Chapter2.row_eqb r x); simpl in *; lia.
Qed.

Lemma sorted_desc_insert_desc (x : Chapter2.row) (l : list Chapter2.row) :
  Chapter2.sorted_desc l = true ->
  Chapter2.sorted_desc (Chapter2.insert_desc x l) = true.
Proof.
  induction l as [|a l IH]; intros H; [reflexivity|].
  simpl. destruct (Nat.leb (snd a) (snd x)) eqn:E.
  - simpl. rewrite E. exact H.
  - assert (Hl : Chapter2.sorted_desc l = true).
    { destruct l; [reflexivity|]. simpl in H.
      apply andb_true_iff in H. tauto. }
    specialize (IH Hl). apply Nat.leb_gt in E.
    destruct l as [|b l]; simpl.
    + rewrite andb_true_r. apply Nat.leb_le. lia.
    + simpl in IH, H. apply andb_true_iff in H. destruct H as [Hba _].
      destruct (Nat.leb (snd b) (snd x)).
      * rewrite andb_true_iff. split; [apply Nat.leb_le; lia | exact IH].
      * rewrite andb_true_iff. split; [exact Hba | exact IH].
Qed.

Lemma sort_desc_is_sort_desc (rows : list Chapter2.row) :
  Chapter2.is_sort_desc rows (Chapter2.sort_desc rows) = true.
Proof.
  unfold Chapter2.is_sort_desc, Chapter2.is_perm.
  rewrite andb_true_iff. split.
  - apply forallb_forall. intros r _. apply Nat.eqb_eq.
    induction rows as [|x rows IH]; [reflexivity|].
    simpl Chapter2.sort_desc. rewrite count_row_insert_desc.
    unfold Chapter2.count_row in *. simpl.
    destruct (Chapter2.row_eqb r x); simpl; rewrite IH; reflexivity.
  - induction rows as [|x rows IH]; [reflexivity|].
    apply sorted_desc_insert_desc. exact IH.
Qed.

Lemma top_complaints_exist (values : list Chapter2.key) :
  Chapter2.complaint_counts_top values
    (firstn 10 (Chapter2.sort_desc (Chapter2.value_counts true values)))
  /\ Chapter2.pl_most_complaints values
       (firstn 10 (Chapter2.sort_desc (Chapter2.value_counts false values))).
Proof.
  split.
  - eexists. split; [|reflexivity].
    eexists. split; [apply value_counts_is_value_counts|].
    apply sort_desc_is_sort_desc.
  - eexists. eexists. split; [apply value_counts_is_value_counts|].
    split; [apply sort_desc_is_sort_desc | reflexivity].
Qed.


(** Where two complaint types occur equally often the descriptions leave
    their order open, so no more than the counts can be promised there. *)
Lemma top_complaints_ties_unordered :
  Chapter2.complaint_counts_top [Some "A"; Some "B"]
    [(Some "A", 1); (Some "B", 1)]
  /\ Chapter2.pl_most_complaints [Some "A"; Some "B"]
       [(Some "B", 1); (Some "A", 1)].
Proof.
  split.
  - exists [(Some "A", 1); (Some "B", 1)]. split; [|reflexivity].
    exists [(Some "A", 1); (Some "B", 1)]. split; reflexivity.
  - exists [(Some "A", 1); (Some "B", 1)], [(Some "B", 1); (Some "A", 1)].
    repeat split; reflexivity.
Qed.



(** ** Chapter 6 *)

Local Open Scope Z_scope.

(** Reduce the projections of a timestamp written out field by field. *)
Ltac fields :=
  cbn [Chapter6.year Chapter6.month Chapter6.day Chapter6.tod fst snd] in *.

Lemma days_in_month_bounds (y m : Z) :
  28 <= Chapter6.days_in_month y m <= 31.
Proof.
  unfold Chapter6.days_in_month.
  destruct (m =? 2); [destruct (Chapter6.leap y); lia|].
  destruct ((m =? 4) || (m =? 6) || (m =? 9) || (m =? 11)); lia.
Qed.

Lemma valid_bounds (d : Chapter6.datetime) :
  Chapter6.valid d = true ->
  1 <= Chapter6.month d <= 12
  /\ 1 <= Chapter6.day d
          <= Chapter6.days_in_month (Chapter6.year d) (Chapter6.month d)
  /\ 0 <= Chapter6.tod d < Chapter6.ns_per_day.
Proof.
  unfold Chapter6.valid. rewrite !andb_true_iff.
  rewrite !Z.leb_le, Z.ltb_lt. lia.
Qed.

Lemma ltb_iff (a b : Chapter6.datetime) :
  Chapter6.ltb a b = true <->
  Chapter6.year a < Chapter6.year b
  \/ (Chapter6.year a = Chapter6.year b
      /\ (Chapter6.month a < Chapter6.month b
          \/ (Chapter6.month a = Chapter6.month b
              /\ (Chapter6.day a < Chapter6.day b
                  \/ (Chapter6.day a = Chapter6.day b
                      /\ Chapter6.tod a < Chapter6.tod b))))).
Proof.
  unfold Chapter6.ltb.
  repeat (rewrite orb_true_iff || rewrite andb_true_iff).
  rewrite !Z.ltb_lt, !Z.eqb_eq. tauto.
Qed.

Lemma leb_iff (a b : Chapter6.datetime) :
  Chapter6.leb a b = true <-> ~ Chapter6.ltb b a = true.
Proof.
  unfold Chapter6.leb. rewrite negb_true_iff, not_true_iff_false. tauto.
Qed.

(** Before the first instant of a month, after its last. *)
Lemma before_month_start (x : Chapter6.datetime) (y m : Z) :
  Chapter6.valid x = true ->
  (Chapter6.ltb x {| Chapter6.year := y; Chapter6.month := m;
                     Chapter6.day := 1; Chapter6.tod := 0 |} = true
   <-> Chapter6.year x < y
       \/ (Chapter6.year x = y /\ Chapter6.month x < m)).
Proof.
  intros Hx. apply valid_bounds in Hx. rewrite ltb_iff. fields. lia.
Qed.

Lemma after_month_end (x : Chapter6.datetime) (y m : Z) :
  Chapter6.valid x = true ->
  (Chapter6.ltb
     {| Chapter6.year := y; Chapter6.month := m;
        Chapter6.day := Chapter6.days_in_month y m;
        Chapter6.tod := Chapter6.ns_per_day - 1 |} x = true
   <-> y < Chapter6.year x
       \/ (y = Chapter6.year x /\ m < Chapter6.month x)).
Proof.
  intros Hx. apply valid_bounds in Hx. rewrite ltb_iff. fields.
  destruct (Z.eq_dec y (Chapter6.year x)) as [->|Hy]; [|lia].
  destruct (Z.eq_dec m (Chapter6.month x)) as [->|Hm]; lia.
Qed.

Lemma same_month_iff {V} (d : Chapter6.datetime) (r : Chapter6.reading V) :
  Chapter6.same_month d r = true <->
  Chapter6.year (fst r) = Chapter6.year d
  /\ Chapter6.month (fst r) = Chapter6.month d.
Proof.
  unfold Chapter6.same_month. rewrite andb_true_iff, !Z.eqb_eq. tauto.
Qed.

Lemma in_window_same_month {V} (d : Chapter6.datetime) (r : Chapter6.reading V) :
  1 <= Chapter6.month d <= 12 ->
  Chapter6.valid (fst r) = true ->
  Chapter6.in_window (Chapter6.month_start d) r = Chapter6.same_month d r.
Proof.
  intros Hd Hr. apply eq_true_iff_eq.
  unfold Chapter6.in_window. rewrite andb_true_iff, leb_iff, same_month_iff.
  unfold Chapter6.month_start, Chapter6.add_month. fields.
  destruct (Chapter6.month d =? 12) eqn:E;
    [apply Z.eqb_eq in E | apply Z.eqb_neq in E];
    rewrite !(before_month_start _ _ _ Hr);
    apply valid_bounds in Hr; lia.
Qed.

Lemma in_bin_same_month {V} (d : Chapter6.datetime) (r : Chapter6.reading V) :
  1 <= Chapter6.month d <= 12 ->
  Chapter6.valid (fst r) = true ->
  Chapter6.in_bin (Chapter6.month_end d) r = Chapter6.same_month d r.
Proof.
  intros Hd Hr. apply eq_true_iff_eq.
  unfold Chapter6.in_bin. rewrite andb_true_iff, leb_iff, same_month_iff.
  unfold Chapter6.prev_month_end, Chapter6.month_end, Chapter6.sub_month,
    Chapter6.end_of_day. fields.
  destruct (Chapter6.month d =? 1) eqn:E;
    [apply Z.eqb_eq in E | apply Z.eqb_neq in E]; fields;
    rewrite !(after_month_end _ _ _ Hr);
    apply valid_bounds in Hr; lia.
Qed.

Lemma eqb_refl (a : Chapter6.datetime) : Chapter6.eqb a a = true.
Proof.
  unfold Chapter6.eqb. rewrite !Z.eqb_refl. reflexivity.
Qed.

Lemma eqb_eq (a b : Chapter6.datetime) : Chapter6.eqb a b = true -> a = b.
Proof.
  unfold Chapter6.eqb. rewrite !andb_true_iff, !Z.eqb_eq.
  destruct a, b. fields. intros [[[-> ->] ->] ->]. reflexivity.
Qed.

Lemma add_month_index (d : Chapter6.datetime) :
  1 <= Chapter6.month d <= 12 ->
  Chapter6.month_index (Chapter6.add_month d) = Chapter6.month_index d + 1
  /\ 1 <= Chapter6.month (Chapter6.add_month d) <= 12.
Proof.
  intros Hd. unfold Chapter6.add_month, Chapter6.month_index.
  destruct (Chapter6.month d =? 12) eqn:E;
    [apply Z.eqb_eq in E | apply Z.eqb_neq in E]; fields; lia.
Qed.

Lemma month_of_index (a b : Chapter6.datetime) :
  1 <= Chapter6.month a <= 12 -> 1 <= Chapter6.month b <= 12 ->
  Chapter6.month_index a = Chapter6.month_index b ->
  Chapter6.year a = Chapter6.year b /\ Chapter6.month a = Chapter6.month b.
Proof.
  unfold Chapter6.month_index. lia.
Qed.

(** The window of a month is among the windows that start early enough
    and go on long enough. *)
Lemma In_window_starts (n : nat) (lo d : Chapter6.datetime) :
  1 <= Chapter6.month lo <= 12 -> 1 <= Chapter6.month d <= 12 ->
  Chapter6.month_index lo <= Chapter6.month_index d
  < Chapter6.month_index lo + Z.of_nat n ->
  In (Chapter6.month_start d)
     (Chapter6.window_starts (Chapter6.month_start lo) n).
Proof.
  revert lo. induction n as [|n IH]; intros lo Hlo Hd Hr; [lia|].
  simpl. destruct (Z.eq_dec (Chapter6.month_index lo) (Chapter6.month_index d))
    as [Heq|Hne].
  - left. destruct (month_of_index _ _ Hlo Hd Heq) as [Hy Hm].
    unfold Chapter6.month_start. rewrite Hy, Hm. reflexivity.
  - right. destruct (add_month_index lo Hlo) as [Hi Hm].
    replace (Chapter6.add_month (Chapter6.month_start lo))
      with (Chapter6.month_start (Chapter6.add_month lo)).
    + apply IH; auto. lia.
    + unfold Chapter6.add_month, Chapter6.month_start. fields.
      destruct (Chapter6.month lo =? 12); reflexivity.
Qed.

Lemma In_bin_labels (n : nat) (lo d : Chapter6.datetime) :
  1 <= Chapter6.month lo <= 12 -> 1 <= Chapter6.month d <= 12 ->
  Chapter6.month_index lo <= Chapter6.month_index d
  < Chapter6.month_index lo + Z.of_nat n ->
  In (Chapter6.month_end d)
     (Chapter6.bin_labels (Chapter6.month_end lo) n).
Proof.
  revert lo. induction n as [|n IH]; intros lo Hlo Hd Hr; [lia|].
  simpl. destruct (Z.eq_dec (Chapter6.month_index lo) (Chapter6.month_index d))
    as [Heq|Hne].
  - left. destruct (month_of_index _ _ Hlo Hd Heq) as [Hy Hm].
    unfold Chapter6.month_end. rewrite Hy, Hm. reflexivity.
  - right. destruct (add_month_index lo Hlo) as [Hi Hm].
    replace (Chapter6.next_month_end (Chapter6.month_end lo))
      with (Chapter6.month_end (Chapter6.add_month lo)).
    + apply IH; auto. lia.
    + unfold Chapter6.next_month_end, Chapter6.add_month, Chapter6.month_end.
      fields. destruct (Chapter6.month lo =? 12); reflexivity.
Qed.

(** Looking a label up in the two results. *)
Lemma at_label_windows {V}
  (f : Chapter6.datetime -> list (Chapter6.datetime * option V))
  (v : option V) (label : Chapter6.datetime) (starts : list Chapter6.datetime) :
  (forall lo, f lo = [] \/ exists w, f lo = [(lo, w)]) ->
  f label = [(label, v)] ->
  In label starts ->
  Chapter6.at_label label (flat_map f starts) = Some v.
Proof.
  intros Hf Hlabel. induction starts as [|lo starts IH]; intros Hin.
  - contradiction.
  - simpl. destruct (Chapter6.eqb lo label) eqn:E.
    + apply eqb_eq in E. subst lo. rewrite Hlabel. simpl.
      rewrite eqb_refl. reflexivity.
    + assert (Hin' : In label starts).
      { destruct Hin as [->|Hin]; [rewrite eqb_refl in E; discriminate|auto]. }
      destruct (Hf lo) as [->|[w ->]]; simpl.
      * apply IH, Hin'.
      * rewrite E. apply IH, Hin'.
Qed.

Lemma at_label_bins {V} (g : Chapter6.datetime -> option V)
  (label : Chapter6.datetime) (labels : list Chapter6.datetime) :
  In label labels ->
  Chapter6.at_label label (map (fun l => (l, g l)) labels) = Some (g label).
Proof.
  induction labels as [|l labels IH]; intros Hin; [contradiction|].
  simpl. destruct (Chapter6.eqb l label) eqn:E.
  - apply eqb_eq in E. subst l. reflexivity.
  - destruct Hin as [->|Hin]; [rewrite eqb_refl in E; discriminate|auto].
Qed.

(** Order and month numbers. *)
Lemma ltb_month_index (a b : Chapter6.datetime) :
  1 <= Chapter6.month a <= 12 -> 1 <= Chapter6.month b <= 12 ->
  Chapter6.ltb a b = true ->
  Chapter6.month_index a <= Chapter6.month_index b.
Proof.
  intros Ha Hb. rewrite ltb_iff. unfold Chapter6.month_index. lia.
Qed.

Lemma not_ltb_month_index (a b : Chapter6.datetime) :
  1 <= Chapter6.month a <= 12 -> 1 <= Chapter6.month b <= 12 ->
  Chapter6.ltb a b = false ->
  Chapter6.month_index b <= Chapter6.month_index a.
Proof.
  intros Ha Hb H. apply not_true_iff_false in H. rewrite ltb_iff in H.
  unfold Chapter6.month_index. lia.
Qed.

Lemma last_default {A} (l : list A) (x a b : A) :
  List.last (x :: l) a = List.last (x :: l) b.
Proof.
  revert x. induction l as [|y l IH]; intros x; [reflexivity|].
  change (List.last (y :: l) a = List.last (y :: l) b). apply IH.
Qed.

Lemma last_map_fst {A B} (l : list (A * B)) (p : A * B) :
  List.last (map fst l) (fst p) = fst (List.last l p).
Proof.
  induction l as [|x l IH]; [reflexivity|].
  destruct l as [|y l]; [reflexivity|]. exact IH.
Qed.

Lemma is_sorted_first (a : Chapter6.datetime) (ts : list Chapter6.datetime) :
  Chapter6.all_valid (a :: ts) ->
  Chapter6.is_sorted (a :: ts) = true ->
  forall d, In d (a :: ts) ->
            Chapter6.month_index a <= Chapter6.month_index d.
Proof.
  revert a. induction ts as [|b ts IH]; intros a Hok Hs d Hd.
  - destruct Hd as [<-|[]]. lia.
  - simpl in Hs. apply andb_true_iff in Hs. destruct Hs as [Hab Hs].
    inversion Hok as [|? ? Ha Hok']; subst.
    destruct Hd as [<-|Hd]; [lia|].
    specialize (IH b Hok' Hs d Hd).
    inversion Hok' as [|? ? Hb _]; subst.
    apply valid_bounds in Ha, Hb.
    unfold Chapter6.leb in Hab. apply negb_true_iff in Hab.
    pose proof (not_ltb_month_index b a ltac:(lia) ltac:(lia) Hab) as H. lia.
Qed.

Lemma is_sorted_last (a : Chapter6.datetime) (ts : list Chapter6.datetime) :
  Chapter6.all_valid (a :: ts) ->
  Chapter6.is_sorted (a :: ts) = true ->
  forall d, In d (a :: ts) ->
            Chapter6.month_index d
            <= Chapter6.month_index (List.last (a :: ts) a).
Proof.
  revert a. induction ts as [|b ts IH]; intros a Hok Hs d Hd.
  - destruct Hd as [<-|[]]. simpl. lia.
  - simpl in Hs. apply andb_true_iff in Hs. destruct Hs as [Hab Hs].
    inversion Hok as [|? ? Ha Hok']; subst.
    inversion Hok' as [|? ? Hb _]; subst.
    change (List.last (a :: b :: ts) a) with (List.last (b :: ts) a).
    rewrite (last_default ts b a b).
    destruct Hd as [<-|Hd]; [|apply IH; auto].
    apply valid_bounds in Ha, Hb.
    unfold Chapter6.leb in Hab. apply negb_true_iff in Hab.
    pose proof (not_ltb_month_index b a ltac:(lia) ltac:(lia) Hab) as H.
    specialize (IH b Hok' Hs b (or_introl eq_refl)). lia.
Qed.

Lemma earliest_spec (ts : list Chapter6.datetime) (init : Chapter6.datetime) :
  Chapter6.valid init = true -> Chapter6.all_valid ts ->
  Chapter6.valid (Chapter6.earliest init ts) = true
  /\ Chapter6.month_index (Chapter6.earliest init ts)
     <= Chapter6.month_index init
  /\ forall d, In d ts ->
               Chapter6.month_index (Chapter6.earliest init ts)
               <= Chapter6.month_index d.
Proof.
  unfold Chapter6.earliest. revert init.
  induction ts as [|t ts IH]; intros init Hi Hts; simpl.
  - repeat split; auto; [lia | contradiction].
  - inversion Hts as [|? ? Ht Hts']; subst.
    pose proof (valid_bounds _ Hi) as Bi. pose proof (valid_bounds _ Ht) as Bt.
    destruct (Chapter6.ltb t init) eqn:E.
    + destruct (IH t Ht Hts') as [Hv [Hle Hall]].
      pose proof (ltb_month_index t init ltac:(lia) ltac:(lia) E) as H.
      repeat split; auto; [lia|].
      intros d [<-|Hd]; [lia | auto].
    + destruct (IH init Hi Hts') as [Hv [Hle Hall]].
      pose proof (not_ltb_month_index t init ltac:(lia) ltac:(lia) E) as H.
      repeat split; auto.
      intros d [<-|Hd]; [lia | auto].
Qed.

Lemma latest_spec (ts : list Chapter6.datetime) (init : Chapter6.datetime) :
  Chapter6.valid init = true -> Chapter6.all_valid ts ->
  Chapter6.month_index init
  <= Chapter6.month_index (Chapter6.latest init ts)
  /\ forall d, In d ts ->
               Chapter6.month_index d
               <= Chapter6.month_index (Chapter6.latest init ts).
Proof.
  unfold Chapter6.latest. revert init.
  induction ts as [|t ts IH]; intros init Hi Hts; simpl.
  - split; [lia | contradiction].
  - inversion Hts as [|? ? Ht Hts']; subst.
    pose proof (valid_bounds _ Hi) as Bi. pose proof (valid_bounds _ Ht) as Bt.
    destruct (Chapter6.ltb init t) eqn:E.
    + destruct (IH t Ht Hts') as [Hle Hall].
      pose proof (ltb_month_index init t ltac:(lia) ltac:(lia) E) as H.
      split; [lia|].
      intros d [<-|Hd]; [lia | auto].
    + destruct (IH init Hi Hts') as [Hle Hall].
      pose proof (not_ltb_month_index init t ltac:(lia) ltac:(lia) E) as H.
      split; auto.
      intros d [<-|Hd]; [lia | auto].
Qed.

Lemma months_spanned_covers (lo hi d : Chapter6.datetime) :
  Chapter6.month_index lo <= Chapter6.month_index d ->
  Chapter6.month_index d <= Chapter6.month_index hi ->
  Chapter6.month_index lo <= Chapter6.month_index d
  < Chapter6.month_index lo + Z.of_nat (Chapter6.months_spanned lo hi).
Proof.
  unfold Chapter6.months_spanned. lia.
Qed.

Lemma month_start_index (d : Chapter6.datetime) :
  Chapter6.month_index (Chapter6.month_start d) = Chapter6.month_index d.
Proof. reflexivity. Qed.

(** The windows of polars and the bins of pandas hold the same rows,
    those of the calendar month, whatever is computed from them. *)
Lemma monthly_groups_agree {V} (pl_agg pd_agg : list V -> option V)
  (rows : list (Chapter6.reading V)) :
  forallb Chapter6.valid (map fst rows) = true ->
  Chapter6.is_sorted (map fst rows) = true ->
  exists out,
    Chapter6.group_by_dynamic_1mo pl_agg rows = Ok out
    /\ forall r, In r rows ->
         Chapter6.temperatures_of_month (fst r) rows <> []
         /\ Chapter6.at_label (Chapter6.month_start (fst r)) out
            = Some (pl_agg (Chapter6.temperatures_of_month (fst r) rows))
         /\ Chapter6.at_label (Chapter6.month_end (fst r))
              (Chapter6.resample_M pd_agg rows)
            = Some (pd_agg (Chapter6.temperatures_of_month (fst r) rows)).
Proof.
  intros Hvalid Hsorted.
  assert (Hall : Chapter6.all_valid (map fst rows)).
  { apply Forall_forall. apply forallb_forall. exact Hvalid. }
  assert (Hrow : forall x, In x rows -> Chapter6.valid (fst x) = true).
  { intros x Hx. unfold Chapter6.all_valid in Hall.
    rewrite Forall_forall in Hall. apply Hall. apply in_map. exact Hx. }
  unfold Chapter6.group_by_dynamic_1mo.
  rewrite Hsorted. cbn [negb].
  destruct rows as [|first rest] eqn:Erows.
  { exists []. split; [reflexivity | intros r []]. }
  rewrite <- Erows in *. clear Hvalid.
  eexists. split; [reflexivity|].
  intros r Hr.
  pose proof (valid_bounds _ (Hrow r Hr)) as Br.
  assert (Hfirst : In first rows) by (rewrite Erows; left; reflexivity).
  pose proof (valid_bounds _ (Hrow first Hfirst)) as Bf.
  assert (Hts : In (fst r) (map fst rows)) by (apply in_map; exact Hr).
  assert (Hwin : List.filter (Chapter6.in_window (Chapter6.month_start (fst r))) rows
                 = List.filter (Chapter6.same_month (fst r)) rows).
  { apply filter_ext_in. intros x Hx.
    apply in_window_same_month; [lia | auto]. }
  assert (Hbin : List.filter (Chapter6.in_bin (Chapter6.month_end (fst r))) rows
                 = List.filter (Chapter6.same_month (fst r)) rows).
  { apply filter_ext_in. intros x Hx.
    apply in_bin_same_month; [lia | auto]. }
  assert (Hmem : In r (List.filter (Chapter6.same_month (fst r)) rows)).
  { apply filter_In. split; [exact Hr|].
    apply same_month_iff. split; reflexivity. }
  split; [|split].
  - unfold Chapter6.temperatures_of_month.
    destruct (List.filter (Chapter6.same_month (fst r)) rows);
      [contradiction | discriminate].
  - apply at_label_windows.
    + intros lo. destruct (List.filter (Chapter6.in_window lo) rows);
        [left; reflexivity | right; eexists; reflexivity].
    + rewrite Hwin. unfold Chapter6.temperatures_of_month.
      destruct (List.filter (Chapter6.same_month (fst r)) rows);
        [contradiction | reflexivity].
    + apply In_window_starts; [lia | lia |].
      apply months_spanned_covers.
      * rewrite Erows in Hts, Hall, Hsorted. simpl map in Hts, Hall, Hsorted.
        apply (is_sorted_first _ _ Hall Hsorted). exact Hts.
      * replace (fst (List.last rows first))
          with (List.last (map fst rows) (fst first))
          by apply last_map_fst.
        rewrite Erows in Hts, Hall, Hsorted |- *.
        simpl map in Hts, Hall, Hsorted |- *.
        apply (is_sorted_last _ _ Hall Hsorted). exact Hts.
  - unfold Chapter6.resample_M.
    rewrite Erows. rewrite <- Erows.
    rewrite (at_label_bins
               (fun label =>
                  pd_agg (map snd (List.filter (Chapter6.in_bin label) rows)))).
    + rewrite Hbin. reflexivity.
    + destruct (earliest_spec (map fst rows) (fst first)) as [Hv [_ Hlo]];
        [apply Hrow; exact Hfirst | exact Hall |].
      destruct (latest_spec (map fst rows) (fst first)) as [_ Hhi];
        [apply Hrow; exact Hfirst | exact Hall |].
      apply valid_bounds in Hv.
      apply In_bin_labels; [lia | lia |].
      apply months_spanned_covers; auto.
Qed.






(** C5, as it is written, fails at a frame that is not sorted by
    [date_time]: [group_by_dynamic] raises, while [resample] has a median
    for January. *)
Lemma monthly_medians_need_sorted_rows :
  forallb Chapter6.valid (map fst Chapter6.unsorted_readings) = true
  /\ Chapter6.pl_weather_2012_monthly Chapter6.unsorted_readings
     = Err InvalidOperationError
  /\ Chapter6.at_label (Chapter6.month_end (Chapter6.on_the_hour 2012 1 1 0))
       (Chapter6.weather_2012_monthly Chapter6.unsorted_readings)
     = Some (Some 1%float).
Proof.
  repeat split; vm_compute; reflexivity.
Qed.




Local Close Scope Z_scope.

(** * More of the code *)

(** ** Chapter 7, the zip codes *)

Lemma slice_prefix_length (n : nat) (s : string) :
  Text.char_length (Text.slice 0 n s) <= n.
Proof.
  unfold Text.slice. simpl Text.drop_chars.
  revert n. induction s as [|c s IH]; intros n; simpl.
  - lia.
  - destruct (Text.is_continuation c) eqn:E.
    + simpl. rewrite E. apply IH.
    + destruct n as [|n]; simpl; [lia|].
      rewrite E. specialize (IH n). lia.
Qed.

Lemma slice_prefix_short (n : nat) (s : string) :
  Text.char_length s <= n -> Text.slice 0 n s = s.
Proof.
  unfold Text.slice. simpl Text.drop_chars.
  revert n. induction s as [|c s IH]; intros n H; simpl in *.
  - reflexivity.
  - destruct (Text.is_continuation c) eqn:E.
    + rewrite IH; [reflexivity | exact H].
    + destruct n as [|n]; [lia|].
      rewrite IH; [reflexivity | lia].
Qed.

(** [fix_zip_codes] leaves a clean series: as long as the one it was
    given, every zip of at most five characters, none of them ["00000"];
    a zip that was already short and not ["00000"] is kept as it is, and a
    missing one stays missing. *)
Theorem fix_zip_codes_leaves_clean_zips (zips : Pandas.StrSeries) :
  exists fixed,
    Chapter7.fix_zip_codes zips = Ok fixed
    /\ length fixed = length zips
    /\ (forall i v, nth_error fixed i = Some (Some v) ->
                    Text.char_length v <= 5 /\ v <> "00000")
    /\ (forall i s, nth_error zips i = Some (Some s) ->
                    Text.char_length s <= 5 -> s <> "00000" ->
                    nth_error fixed i = Some (Some s))
    /\ (forall i, nth_error zips i = Some None ->
                  nth_error fixed i = Some None).
Proof.
  exists (map (fun z => Chapter7.clear_zero (Chapter7.first5 z)) zips).
  split; [apply fix_zip_codes_eq|]. split; [apply length_map|].
  split; [|split].
  - intros i v H. rewrite nth_error_map in H.
    destruct (nth_error zips i) as [[s|]|]; simpl in H; try discriminate.
    destruct (String.eqb (Text.slice 0 5 s) "00000") eqn:E;
      [discriminate|].
    injection H as <-. split; [apply slice_prefix_length|].
    apply String.eqb_neq. exact E.
  - intros i s H Hlen Hne. rewrite nth_error_map, H. simpl.
    rewrite (slice_prefix_short 5 s Hlen).
    apply String.eqb_neq in Hne. rewrite Hne. reflexivity.
  - intros i H. rewrite nth_error_map, H. reflexivity.
Qed.

Lemma fix_zip_codes_clean_witness :
  exists fixed,
    Chapter7.fix_zip_codes
      [Some "29616-0759"; Some "00000"; None; Some "83"; Some "é1234567"]
    = Ok fixed
    /\ nth_error fixed 0 = Some (Some "29616")
    /\ nth_error fixed 3 = Some (Some "83")
    /\ nth_error fixed 2 = Some None
    /\ nth_error fixed 4 = Some (Some "é1234").
Proof.
  destruct (fix_zip_codes_leaves_clean_zips
              [Some "29616-0759"; Some "00000"; None; Some "83";
               Some "é1234567"])
    as [fixed [Hfix [_ [_ [Hshort Hnone]]]]].
  exists fixed. split; [exact Hfix|].
  split; [|split; [|split]].
  - rewrite fix_zip_codes_eq in Hfix. injection Hfix as <-. reflexivity.
  - apply Hshort; [reflexivity | simpl; lia | discriminate].
  - apply Hnone. reflexivity.
  - rewrite fix_zip_codes_eq in Hfix. injection Hfix as <-. reflexivity.
Defined.

Lemma with_columns_named_values (name : string) (t : dtype) (e : Polars.expr t)
  (df : DataFrame) (l : list (option (denote t))) :
  df <> [] ->
  Polars.eval df e = Ok (Polars.Series l) ->
  length l = height df ->
  Polars.with_columns_named name e df = Ok (put_column name (as_column t l) df).
Proof.
  intros Hne He Hlen. unfold Polars.with_columns_named.
  rewrite He. simpl. destruct df as [|p df]; [congruence|].
  rewrite Hlen, Nat.eqb_refl. reflexivity.
Qed.

Lemma columns_put_column_present (name : string) (c c' : column) (df : DataFrame) :
  get_column name df = Some c' ->
  columns (put_column name c df) = columns df.
Proof.
  unfold columns. induction df as [|[n d] df IH]; simpl; [discriminate|].
  destruct (String.eqb n name) eqn:E; simpl; [reflexivity|].
  intros H. rewrite IH; auto.
Qed.

(** On the one column whose name is the keyword, [zip_column],
    [pl_fix_zip_codes] does what [fix_zip_codes] does, and adds no
    column. *)
Theorem pl_fix_zip_codes_right_for_zip_column (data : DataFrame)
  (zips : list (option string)) :
  get_column "zip_column" data = Some (StrCol zips) ->
  height data = length zips ->
  exists out fixed,
    Chapter7.pl_fix_zip_codes data "zip_column" = Ok out
    /\ Chapter7.fix_zip_codes zips = Ok fixed
    /\ get_column "zip_column" out = Some (StrCol fixed)
    /\ columns out = columns data.
Proof.
  intros Hcol Hh. pose proof (get_column_nonempty _ _ _ Hcol) as Hne.
  unfold Chapter7.pl_fix_zip_codes.
  rewrite (with_columns_named_series _ _ _
             (map Chapter7.first5 zips) Hne).
  2:{ simpl. rewrite Hcol. reflexivity. }
  2:{ rewrite length_map. auto. }
  simpl bind.
  set (data1 := put_column "zip_column" _ data).
  assert (Hcol1 : get_column "zip_column" data1
                  = Some (StrCol (map Chapter7.first5 zips))).
  { apply get_column_put_same. }
  assert (Hh1 : height data1 = length zips).
  { unfold data1. rewrite height_put_column; auto.
    simpl. rewrite length_map. auto. }
  pose proof (get_column_nonempty _ _ _ Hcol1) as Hne1.
  rewrite (with_columns_named_series _ _ _
             (map Chapter7.clear_zero (map Chapter7.first5 zips)) Hne1).
  - eexists. eexists. split; [reflexivity|].
    split; [apply fix_zip_codes_eq|]. split.
    + rewrite get_column_put_same, map_map. reflexivity.
    + rewrite (columns_put_column_present _ _ _ _ Hcol1).
      unfold data1. apply (columns_put_column_present _ _ _ _ Hcol).
  - simpl. rewrite Hcol1. simpl. unfold Polars.lift3_when. simpl.
    rewrite zip_with_map. simpl. do 2 f_equal.
    apply map_ext. intros [z|]; simpl; [|reflexivity].
    destruct (String.eqb z "00000"); reflexivity.
  - rewrite !length_map. auto.
Qed.

Lemma pl_fix_zip_codes_zip_column_witness :
  exists out fixed,
    Chapter7.pl_fix_zip_codes
      [("zip_column", StrCol [Some "29616-0759"; Some "00000"])] "zip_column"
    = Ok out
    /\ Chapter7.fix_zip_codes [Some "29616-0759"; Some "00000"] = Ok fixed
    /\ get_column "zip_column" out = Some (StrCol fixed)
    /\ columns out = ["zip_column"].
Proof.
  apply (pl_fix_zip_codes_right_for_zip_column
           [("zip_column", StrCol [Some "29616-0759"; Some "00000"])]
           [Some "29616-0759"; Some "00000"]);
    reflexivity.
Defined.

(** For every other column name [pl_fix_zip_codes] changes no column of
    the frame it was given: all it does is write a column [zip_column],
    holding the zips of the named column untruncated, with a null where
    the zip is ["00000"]. *)
Theorem pl_fix_zip_codes_writes_zip_column_only (data : DataFrame)
  (zip_column : string) (zips : list (option string)) :
  zip_column <> "zip_column" ->
  get_column zip_column data = Some (StrCol zips) ->
  height data = length zips ->
  exists out,
    Chapter7.pl_fix_zip_codes data zip_column = Ok out
    /\ (forall other, other <> "zip_column" ->
                      get_column other out = get_column other data)
    /\ get_column "zip_column" out
       = Some (StrCol (map Chapter7.clear_zero zips)).
Proof.
  intros Hname Hcol Hh. pose proof (get_column_nonempty _ _ _ Hcol) as Hne.
  assert (Hneq : String.eqb "zip_column" zip_column = false).
  { apply String.eqb_neq. congruence. }
  unfold Chapter7.pl_fix_zip_codes.
  rewrite (with_columns_named_series _ _ _
             (map Chapter7.first5 zips) Hne).
  2:{ simpl. rewrite Hcol. reflexivity. }
  2:{ rewrite length_map. auto. }
  simpl bind.
  set (data1 := put_column "zip_column" _ data).
  assert (Hcol1 : get_column zip_column data1 = Some (StrCol zips)).
  { unfold data1. rewrite get_column_put_other; auto. }
  assert (Hh1 : height data1 = length zips).
  { unfold data1. rewrite height_put_column; auto.
    simpl. rewrite length_map. auto. }
  pose proof (get_column_nonempty _ _ _ Hcol1) as Hne1.
  rewrite (with_columns_named_series _ _ _
             (map Chapter7.clear_zero zips) Hne1).
  - eexists. split; [reflexivity|]. split.
    + intros other Hother.
      assert (Ho : String.eqb "zip_column" other = false).
      { apply String.eqb_neq. congruence. }
      unfold data1. rewrite !get_column_put_other; auto.
    + apply get_column_put_same.
  - simpl. rewrite Hcol1. simpl. unfold Polars.lift3_when. simpl.
    rewrite zip_with_map. simpl. do 2 f_equal.
    apply map_ext. intros [z|]; simpl; [|reflexivity].
    destruct (String.eqb z "00000"); reflexivity.
  - rewrite length_map. auto.
Qed.

Lemma pl_fix_zip_codes_only_witness :
  exists out,
    Chapter7.pl_fix_zip_codes
      [("City", StrCol [Some "NYC"]); ("Incident Zip", StrCol [Some "00000-12"])]
      "Incident Zip" = Ok out
    /\ (forall other, other <> "zip_column" ->
          get_column other out
          = get_column other
              [("City", StrCol [Some "NYC"]);
               ("Incident Zip", StrCol [Some "00000-12"])])
    /\ get_column "zip_column" out = Some (StrCol [Some "00000-12"]).
Proof.
  apply (pl_fix_zip_codes_writes_zip_column_only
           [("City", StrCol [Some "NYC"]);
            ("Incident Zip", StrCol [Some "00000-12"])]
           "Incident Zip" [Some "00000-12"]).
  - discriminate.
  - reflexivity.
  - reflexivity.
Defined.

(** The pandas mask [rows_with_dashes] is the polars column of the same
    name with null read as false; the polars column is null exactly where
    the zip is missing. *)
Theorem rows_with_dashes_agree (requests : DataFrame)
  (zips : list (option string)) :
  get_column Chapter7.zip requests = Some (StrCol zips) ->
  height requests = length zips ->
  exists mask out dashes,
    Chapter7Cells.rows_with_dashes requests = Ok mask
    /\ Chapter7.pl_rows_with_dashes requests = Ok out
    /\ get_column "rows_with_dashes" out = Some (BoolCol dashes)
    /\ mask = map Polars.selected dashes
    /\ forall i, nth_error dashes i = Some None
                 <-> nth_error zips i = Some None.
Proof.
  intros Hcol Hh. pose proof (get_column_nonempty _ _ _ Hcol) as Hne.
  exists (PandasFrame.fillna false (PandasFrame.str_contains "-" zips)).
  exists (put_column "rows_with_dashes"
            (BoolCol (map (option_map (Polars.contains "-")) zips)) requests).
  exists (map (option_map (Polars.contains "-")) zips).
  split; [|split; [|split; [|split]]].
  - unfold Chapter7Cells.rows_with_dashes, Pandas.getitem_str.
    rewrite Hcol. reflexivity.
  - unfold Chapter7.pl_rows_with_dashes.
    apply (with_columns_named_values _ Boolean); auto.
    + simpl. rewrite Hcol. reflexivity.
    + rewrite length_map. auto.
  - apply get_column_put_same.
  - unfold PandasFrame.fillna, PandasFrame.str_contains.
    rewrite !map_map. apply map_ext.
    intros [z|]; simpl; [destruct (Polars.contains "-" z)|]; reflexivity.
  - intros i. rewrite nth_error_map.
    destruct (nth_error zips i) as [[z|]|]; simpl; split; congruence.
Qed.

Lemma rows_with_dashes_witness :
  exists mask out dashes,
    Chapter7Cells.rows_with_dashes
      [("Incident Zip", StrCol [Some "29616-0759"; None; Some "83"])] = Ok mask
    /\ Chapter7.pl_rows_with_dashes
         [("Incident Zip", StrCol [Some "29616-0759"; None; Some "83"])] = Ok out
    /\ get_column "rows_with_dashes" out = Some (BoolCol dashes)
    /\ mask = map Polars.selected dashes
    /\ forall i, nth_error dashes i = Some None
                 <-> nth_error [Some "29616-0759"; None; Some "83"] i = Some None.
Proof.
  apply (rows_with_dashes_agree
           [("Incident Zip", StrCol [Some "29616-0759"; None; Some "83"])]
           [Some "29616-0759"; None; Some "83"]);
    reflexivity.
Defined.

(** The truncation of line 85 and that of line 91 give the same frame;
    in it no zip is longer than five characters, a zip that was not
    longer is unchanged, and so is every other column. *)
Theorem truncation_leaves_no_long_zip (requests : DataFrame)
  (zips : list (option string)) :
  get_column Chapter7.zip requests = Some (StrCol zips) ->
  height requests = length zips ->
  exists out truncated,
    Chapter7.truncate requests = Ok out
    /\ Chapter7.pl_truncate requests = Ok out
    /\ get_column Chapter7.zip out = Some (StrCol truncated)
    /\ Chapter7Cells.long_zip_codes out = Ok (map (fun _ => false) zips)
    /\ (forall i s, nth_error zips i = Some (Some s) ->
                    Text.char_length s <= 5 ->
                    nth_error truncated i = Some (Some s))
    /\ (forall other, other <> Chapter7.zip ->
                      get_column other out = get_column other requests).
Proof.
  intros Hcol Hh. pose proof (get_column_nonempty _ _ _ Hcol) as Hne.
  exists (put_column Chapter7.zip (StrCol (map Chapter7.first5 zips)) requests).
  exists (map Chapter7.first5 zips).
  split; [|split; [|split; [|split; [|split]]]].
  - unfold Chapter7.truncate, Pandas.getitem_str, Pandas.setitem.
    rewrite Hcol. simpl.
    destruct requests as [|p rest]; [congruence|].
    unfold Pandas.str_slice. simpl col_length.
    rewrite length_map, <- Hh, Nat.eqb_refl. reflexivity.
  - unfold Chapter7.pl_truncate, Polars.with_columns.
    apply with_columns_named_series; auto.
    + simpl. rewrite Hcol. reflexivity.
    + rewrite length_map. auto.
  - apply get_column_put_same.
  - unfold Chapter7Cells.long_zip_codes, Pandas.getitem_str.
    rewrite get_column_put_same. simpl. f_equal.
    unfold PandasFrame.gt_scalar, PandasFrame.str_len.
    rewrite !map_map. apply map_ext. intros [z|]; simpl; [|reflexivity].
    apply Nat.ltb_ge. apply slice_prefix_length.
  - intros i s H Hlen. rewrite nth_error_map, H. simpl.
    rewrite slice_prefix_short; auto.
  - intros other Hother. apply get_column_put_other.
    apply String.eqb_neq. congruence.
Qed.

Lemma truncation_witness :
  exists out truncated,
    Chapter7.truncate
      [("Incident Zip", StrCol [Some "29616-0759"; Some "83"])] = Ok out
    /\ Chapter7.pl_truncate
         [("Incident Zip", StrCol [Some "29616-0759"; Some "83"])] = Ok out
    /\ get_column Chapter7.zip out = Some (StrCol truncated)
    /\ Chapter7Cells.long_zip_codes out = Ok [false; false]
    /\ nth_error truncated 1 = Some (Some "83").
Proof.
  destruct (truncation_leaves_no_long_zip
              [("Incident Zip", StrCol [Some "29616-0759"; Some "83"])]
              [Some "29616-0759"; Some "83"] eq_refl eq_refl)
    as [out [truncated [H1 [H2 [H3 [H4 [H5 _]]]]]]].
  exists out, truncated.
  split; [exact H1|]. split; [exact H2|]. split; [exact H3|].
  split; [exact H4|].
  apply H5; [reflexivity | simpl; lia].
Defined.

(** ** Chapter 3 *)

Lemma zip_with_combine {A B C} (f : A -> B -> C) (l1 : list A) (l2 : list B) :
  length l1 = length l2 ->
  Polars.zip_with f l1 l2 = Some (map (fun p => f (fst p) (snd p)) (combine l1 l2)).
Proof.
  revert l2. induction l1 as [|a l1 IH]; intros [|b l2] H; simpl in *;
    try discriminate; [reflexivity|].
  rewrite IH; [reflexivity | lia].
Qed.

Lemma combine_map_map {A B C D} (f : A -> C) (g : B -> D)
  (l1 : list A) (l2 : list B) :
  combine (map f l1) (map g l2)
  = map (fun p => (f (fst p), g (snd p))) (combine l1 l2).
Proof.
  revert l2. induction l1 as [|a l1 IH]; intros [|b l2]; simpl;
    try reflexivity.
  rewrite IH. reflexivity.
Qed.

(** The first five noise complaints of Brooklyn are the same rows in
    pandas and in polars: the rows where both values are there and equal
    the two literals.  A row with a missing value is selected by neither,
    by pandas because a missing value equals nothing, by polars because
    its filter drops a null. *)
Theorem noise_in_brooklyn_agree (complaints : DataFrame)
  (types boroughs : list (option string)) :
  get_column Chapter3.complaint_type complaints = Some (StrCol types) ->
  get_column Chapter3.borough complaints = Some (StrCol boroughs) ->
  length types = height complaints ->
  length boroughs = height complaints ->
  let mask := map Chapter3.noisy_brooklyn (combine types boroughs) in
  Chapter3.noise_in_brooklyn complaints
  = Ok (PandasFrame.iloc_head 5
          (map (fun nc => (fst nc, Polars.filter_column mask (snd nc)))
               complaints))
  /\ Chapter3.pl_noise_in_brooklyn complaints
     = Chapter3.noise_in_brooklyn complaints.
Proof.
  intros Ht Hb Hlt Hlb mask.
  assert (Hlen : length mask = height complaints).
  { unfold mask. rewrite length_map, length_combine. lia. }
  assert (Hpd : Chapter3.noise_in_brooklyn complaints
                = Ok (PandasFrame.iloc_head 5
                        (map (fun nc => (fst nc, Polars.filter_column mask (snd nc)))
                             complaints))).
  { unfold Chapter3.noise_in_brooklyn, Chapter3.is_noise, Chapter3.in_brooklyn,
      PandasFrame.getitem.
    rewrite Ht, Hb. simpl.
    unfold Pandas.logical_and, Pandas.eq_scalar.
    rewrite zip_with_combine by (rewrite !length_map; lia).
    rewrite combine_map_map.
    simpl. unfold PandasFrame.getitem_mask.
    replace (map _ (map _ (combine types boroughs))) with mask.
    - rewrite Hlen, Nat.eqb_refl. reflexivity.
    - unfold mask. rewrite map_map. apply map_ext.
      intros [[t|] [b|]]; simpl; try reflexivity.
      + rewrite andb_false_r. reflexivity.
  }
  split; [exact Hpd|]. rewrite Hpd.
  unfold Chapter3.pl_noise_in_brooklyn, Polars.filter, Polars.filter_mask.
  simpl. rewrite Ht, Hb. simpl.
  rewrite zip_with_combine by (rewrite !length_map; lia).
  simpl. rewrite combine_map_map.
  replace (map Polars.selected _) with mask.
  - rewrite Hlen, Nat.eqb_refl. reflexivity.
  - unfold mask. rewrite !map_map. apply map_ext.
    intros [[t|] [b|]]; simpl; try reflexivity.
    + destruct (String.eqb t Chapter3.noise), (String.eqb b Chapter3.brooklyn);
        reflexivity.
    + destruct (String.eqb t Chapter3.noise); reflexivity.
    + destruct (String.eqb b Chapter3.brooklyn); reflexivity.
Qed.

Lemma noise_in_brooklyn_witness :
  Chapter3.noise_in_brooklyn
    [("Complaint Type", StrCol [Some "Noise - Street/Sidewalk"; None;
                                Some "Noise - Street/Sidewalk"]);
     ("Borough", StrCol [Some "BROOKLYN"; Some "BROOKLYN"; None])]
  = Ok [("Complaint Type", StrCol [Some "Noise - Street/Sidewalk"]);
        ("Borough", StrCol [Some "BROOKLYN"])]
  /\ Chapter3.pl_noise_in_brooklyn
       [("Complaint Type", StrCol [Some "Noise - Street/Sidewalk"; None;
                                   Some "Noise - Street/Sidewalk"]);
        ("Borough", StrCol [Some "BROOKLYN"; Some "BROOKLYN"; None])]
     = Chapter3.noise_in_brooklyn
         [("Complaint Type", StrCol [Some "Noise - Street/Sidewalk"; None;
                                     Some "Noise - Street/Sidewalk"]);
          ("Borough", StrCol [Some "BROOKLYN"; Some "BROOKLYN"; None])].
Proof.
  apply (noise_in_brooklyn_agree
           [("Complaint Type", StrCol [Some "Noise - Street/Sidewalk"; None;
                                       Some "Noise - Street/Sidewalk"]);
            ("Borough", StrCol [Some "BROOKLYN"; Some "BROOKLYN"; None])]
           [Some "Noise - Street/Sidewalk"; None; Some "Noise - Street/Sidewalk"]
           [Some "BROOKLYN"; Some "BROOKLYN"; None]);
    reflexivity.
Defined.

(** ** Chapter 2, the table of the most common types *)

Lemma sorted_desc_firstn (n : nat) (rows : list Chapter2.row) :
  Chapter2.sorted_desc rows = true ->
  Chapter2.sorted_desc (firstn n rows) = true.
Proof.
  revert rows. induction n as [|n IH]; intros rows H; [reflexivity|].
  destruct rows as [|a rows]; [reflexivity|].
  destruct rows as [|b rows]; [destruct n; reflexivity|].
  simpl in H. apply andb_true_iff in H. destruct H as [Hab H].
  specialize (IH (b :: rows) H).
  destruct n as [|n]; [reflexivity|].
  change (firstn (S (S n)) (a :: b :: rows))
    with (a :: b :: firstn n rows).
  change (firstn (S n) (b :: rows)) with (b :: firstn n rows) in IH.
  simpl. simpl in IH. rewrite Hab. exact IH.
Qed.

Lemma StronglySorted_app_inv {A} (R : A -> A -> Prop) (l1 l2 : list A) :
  StronglySorted R (l1 ++ l2) ->
  forall a b, In a l1 -> In b l2 -> R a b.
Proof.
  induction l1 as [|x l1 IH]; intros S a b Ha Hb; [contradiction|].
  simpl in S. apply StronglySorted_inv in S. destruct S as [S F].
  destruct Ha as [<-|Ha].
  - rewrite Forall_forall in F. apply F. apply in_or_app. auto.
  - apply IH; auto.
Qed.

(** The table [pl_most_complaints] holds the most common complaint
    types: at most ten rows, sorted by count, no type twice, each with
    the number of its occurrences; and a type that is left out does not
    occur more often than any type in the table, which is then full. *)
Theorem pl_most_complaints_are_the_most_common (values : list Chapter2.key)
  (top : list Chapter2.row) :
  Chapter2.pl_most_complaints values top ->
  length top <= 10
  /\ Chapter2.sorted_desc top = true
  /\ NoDup (map fst top)
  /\ (forall v n, In (v, n) top -> n = Chapter2.count v values /\ 0 < n)
  /\ (forall v, In v values -> ~ In v (map fst top) ->
                length top = 10
                /\ forall w n, In (w, n) top -> Chapter2.count v values <= n).
Proof.
  intros [rows [out [Hvc [Hsort ->]]]].
  unfold Chapter2.is_sort_desc in Hsort. apply andb_true_iff in Hsort.
  destruct Hsort as [Hperm Hsorted].
  apply is_perm_Permutation in Hperm.
  apply is_value_counts_spec in Hvc. destruct Hvc as [Hnd [Hrows Hall]].
  simpl Chapter2.counted in Hrows, Hall.
  assert (Hnd' : NoDup (map fst out)).
  { eapply Permutation_NoDup; [apply Permutation_map; exact Hperm | exact Hnd]. }
  assert (Hin : forall r, In r (firstn 10 out) -> In r rows).
  { intros r Hr. apply (Permutation_in _ (Permutation_sym Hperm)).
    rewrite <- (firstn_skipn 10 out). apply in_or_app. auto. }
  split; [apply firstn_le_length|].
  split; [apply sorted_desc_firstn; exact Hsorted|].
  split.
  { rewrite <- (firstn_skipn 10 out), map_app in Hnd'.
    apply NoDup_app_remove_r in Hnd'. exact Hnd'. }
  split.
  { intros v n Hv. destruct (Hrows _ _ (Hin _ Hv)) as [-> Hvin].
    split; [reflexivity|]. apply In_count_pos. exact Hvin. }
  intros v Hv Hnot.
  assert (Hout : In (v, Chapter2.count v values) out).
  { apply (Permutation_in _ Hperm). apply Hall. exact Hv. }
  rewrite <- (firstn_skipn 10 out) in Hout.
  apply in_app_or in Hout. destruct Hout as [Hout|Hout].
  { exfalso. apply Hnot. apply in_map_iff.
    exists (v, Chapter2.count v values). auto. }
  split.
  - destruct (Nat.le_gt_cases 10 (length out)) as [Hlen|Hlen].
    + apply firstn_length_le. exact Hlen.
    + rewrite skipn_all2 in Hout by lia. contradiction.
  - intros w n Hw.
    apply sorted_desc_StronglySorted in Hsorted.
    rewrite <- (firstn_skipn 10 out) in Hsorted.
    apply (StronglySorted_app_inv _ _ _ Hsorted _ _ Hw Hout).
Qed.

Lemma pl_most_complaints_witness :
  length [(Some "Heating", 2); (Some "Noise", 1)] <= 10
  /\ Chapter2.sorted_desc [(Some "Heating", 2); (Some "Noise", 1)] = true
  /\ NoDup (map fst [(Some "Heating", 2); (Some "Noise", 1)]).
Proof.
  destruct (pl_most_complaints_are_the_most_common
              [Some "Noise"; Some "Heating"; Some "Heating"]
              [(Some "Heating", 2); (Some "Noise", 1)])
    as [H1 [H2 [H3 _]]].
  - exists [(Some "Noise", 1); (Some "Heating", 2)],
           [(Some "Heating", 2); (Some "Noise", 1)].
    repeat split; reflexivity.
  - split; [exact H1|]. split; [exact H2 | exact H3].
Defined.

(** ** Chapter 3, the share of noise complaints *)

Lemma count_keep_le (k : Chapter2.key) (mask : list bool)
  (values : list Chapter2.key) :
  Chapter2.count k (Polars.keep mask values) <= Chapter2.count k values.
Proof.
  unfold Chapter2.count. revert values.
  induction mask as [|m mask IH]; intros values; simpl; [lia|].
  destruct values as [|v values]; [simpl; lia|].
  specialize (IH values).
  destruct m; simpl; destruct (Chapter2.key_eqb k v); simpl; lia.
Qed.

Lemma value_counts_sorted_spec (values : list Chapter2.key)
  (out : list Chapter2.row) :
  Chapter3.value_counts_sorted values out ->
  (forall v n, In (v, n) out -> n = Chapter2.count v values /\ In v values)
  /\ (forall v, In v values -> In (v, Chapter2.count v values) out).
Proof.
  intros [rows [Hvc Hsort]].
  unfold Chapter2.is_sort_desc in Hsort. apply andb_true_iff in Hsort.
  destruct Hsort as [Hperm _]. apply is_perm_Permutation in Hperm.
  apply is_value_counts_spec in Hvc. destruct Hvc as [_ [Hrows Hall]].
  simpl Chapter2.counted in Hrows, Hall. split.
  - intros v n H. apply Hrows.
    apply (Permutation_in _ (Permutation_sym Hperm)). exact H.
  - intros v H. apply (Permutation_in _ Hperm). apply Hall. exact H.
Qed.

(** Every row of the joined table is a borough that is not null, with
    its number of noise complaints and its number of complaints, and the
    ratio of the two is above 0 and at most 1; every borough that is not
    null and has a noise complaint has a row. *)
Theorem complaint_ratios_are_shares (mask : list bool)
  (boroughs : list Chapter2.key) (noise_counts all_counts : list Chapter2.row) :
  Chapter3.value_counts_sorted (Chapter3.pl_noise_boroughs mask boroughs)
    noise_counts ->
  Chapter3.value_counts_sorted boroughs all_counts ->
  (forall row, In row (Chapter3.join noise_counts all_counts) ->
     exists b q,
       fst (fst row) = Some b
       /\ snd (fst row)
          = Chapter2.count (Some b) (Chapter3.pl_noise_boroughs mask boroughs)
       /\ snd row = Chapter2.count (Some b) boroughs
       /\ Chapter3.complaint_ratio row = Some q
       /\ (0 < q)%Q /\ (q <= 1)%Q)
  /\ (forall b, In (Some b) (Chapter3.pl_noise_boroughs mask boroughs) ->
        exists n m, In (Some b, n, m) (Chapter3.join noise_counts all_counts)).
Proof.
  intros Hn Ha.
  apply value_counts_sorted_spec in Hn, Ha.
  destruct Hn as [Hn1 Hn2], Ha as [Ha1 Ha2].
  split.
  - intros [[k n] m] Hrow. unfold Chapter3.join in Hrow.
    apply in_flat_map in Hrow. destruct Hrow as [[k' n'] [Hl Hr]].
    apply in_map_iff in Hr. destruct Hr as [[k2 m'] [Heq Hr]].
    simpl in Heq. injection Heq as -> -> ->.
    apply filter_In in Hr. destruct Hr as [Hr Hkey]. simpl in Hkey.
    destruct k as [b|]; [|discriminate].
    destruct k2 as [b2|]; [|discriminate].
    simpl in Hkey. apply String.eqb_eq in Hkey. subst b2.
    destruct (Hn1 _ _ Hl) as [-> Hin], (Ha1 _ _ Hr) as [-> _].
    pose proof (In_count_pos _ _ Hin) as Hpos.
    pose proof (count_keep_le (Some b) mask boroughs) as Hle.
    unfold Chapter3.pl_noise_boroughs in *.
    remember (Chapter2.count (Some b) (Polars.keep mask boroughs)) as n.
    destruct (Chapter2.count (Some b) boroughs) as [|m'] eqn:Em; [lia|].
    exists b, (Z.of_nat n # Pos.of_nat (S m'))%Q.
    split; [reflexivity|]. split; [exact Heqn|].
    split; [symmetry; exact Em|].
    split; [reflexivity|]. split.
    + unfold Qlt. cbn [Qnum Qden]. lia.
    + assert (Hz : Z.pos (Pos.of_nat (S m')) = Z.of_nat (S m')).
      { rewrite <- (positive_nat_Z (Pos.of_nat (S m'))).
        rewrite Nat2Pos.id by discriminate. reflexivity. }
      unfold Qle. cbn [Qnum Qden]. rewrite Hz. lia.
  - intros b Hb.
    exists (Chapter2.count (Some b) (Chapter3.pl_noise_boroughs mask boroughs)).
    exists (Chapter2.count (Some b) boroughs).
    unfold Chapter3.join. apply in_flat_map.
    exists (Some b, Chapter2.count (Some b) (Chapter3.pl_noise_boroughs mask boroughs)).
    split; [apply Hn2; exact Hb|].
    apply in_map_iff. exists (Some b, Chapter2.count (Some b) boroughs).
    split; [reflexivity|]. apply filter_In. split.
    + apply Ha2. unfold Chapter3.pl_noise_boroughs in Hb.
      apply count_pos_In.
      pose proof (In_count_pos _ _ Hb).
      pose proof (count_keep_le (Some b) mask boroughs). lia.
    + simpl. apply String.eqb_refl.
Qed.

Lemma complaint_ratios_witness :
  (forall row,
      In row (Chapter3.join [(Some "BROOKLYN", 1); (Some "QUEENS", 1)]
                            [(Some "BROOKLYN", 2); (Some "QUEENS", 1)]) ->
      exists b q,
        fst (fst row) = Some b
        /\ snd (fst row)
           = Chapter2.count (Some b)
               (Chapter3.pl_noise_boroughs [true; false; true]
                  [Some "BROOKLYN"; Some "BROOKLYN"; Some "QUEENS"])
        /\ snd row
           = Chapter2.count (Some b)
               [Some "BROOKLYN"; Some "BROOKLYN"; Some "QUEENS"]
        /\ Chapter3.complaint_ratio row = Some q
        /\ (0 < q)%Q /\ (q <= 1)%Q)
  /\ (forall b,
        In (Some b)
           (Chapter3.pl_noise_boroughs [true; false; true]
              [Some "BROOKLYN"; Some "BROOKLYN"; Some "QUEENS"]) ->
        exists n m,
          In (Some b, n, m)
             (Chapter3.join [(Some "BROOKLYN", 1); (Some "QUEENS", 1)]
                            [(Some "BROOKLYN", 2); (Some "QUEENS", 1)])).
Proof.
  apply (complaint_ratios_are_shares [true; false; true]
           [Some "BROOKLYN"; Some "BROOKLYN"; Some "QUEENS"]).
  - exists [(Some "QUEENS", 1); (Some "BROOKLYN", 1)]. split; reflexivity.
  - exists [(Some "QUEENS", 1); (Some "BROOKLYN", 2)]. split; reflexivity.
Defined.

(** ** Chapter 5, the cleaning of a month *)

Lemma mem_In (s : string) (l : list string) : mem s l = true <-> In s l.
Proof.
  unfold mem. rewrite existsb_exists. split.
  - intros [x [Hx E]]. apply String.eqb_eq in E. subst x. exact Hx.
  - intros H. exists s. split; [exact H | apply String.eqb_refl].
Qed.

Lemma find_none_iff {A} (f : A -> bool) (l : list A) :
  find f l = None <-> forall x, In x l -> f x = false.
Proof.
  split; [apply find_none|].
  induction l as [|a l IH]; intros H; simpl; [reflexivity|].
  rewrite (H a (or_introl eq_refl)). apply IH.
  intros x Hx. apply H. right. exact Hx.
Qed.

Lemma get_column_Some_In (name : string) (c : column) (df : DataFrame) :
  get_column name df = Some c -> In (name, c) df.
Proof.
  induction df as [|[n d] df IH]; simpl; [discriminate|].
  destruct (String.eqb n name) eqn:E.
  - apply String.eqb_eq in E. subst n. intros H. injection H as ->. auto.
  - auto.
Qed.

Lemma get_column_In (name : string) (c : column) (df : DataFrame) :
  NoDup (columns df) -> In (name, c) df -> get_column name df = Some c.
Proof.
  unfold columns. induction df as [|[n d] df IH]; simpl; intros Hnd Hin;
    [contradiction|].
  inversion Hnd as [|? ? Hn Hnd']; subst.
  destruct Hin as [Heq|Hin].
  - injection Heq as -> ->. rewrite String.eqb_refl. reflexivity.
  - destruct (String.eqb n name) eqn:E; [|auto].
    apply String.eqb_eq in E. subst n. exfalso. apply Hn.
    apply in_map_iff. exists (name, c). auto.
Qed.

Lemma In_columns (name : string) (df : DataFrame) :
  In name (columns df) <-> exists c, In (name, c) df.
Proof.
  unfold columns. rewrite in_map_iff. split.
  - intros [[n c] [E H]]. simpl in E. subst n. eauto.
  - intros [c H]. exists (name, c). auto.
Qed.

Lemma drop_null_columns_eq (data : DataFrame) :
  NoDup (columns data) ->
  Chapter5.drop_null_columns data = Ok (PandasFrame.dropna_columns data).
Proof.
  intros Hnd. unfold Chapter5.drop_null_columns, Polars.drop.
  set (nulls := List.filter _ (columns data)).
  assert (Hnulls : forall n, In n nulls <->
            exists c, In (n, c) data /\ (0 <? null_count c)%nat = true).
  { intros n. unfold nulls. rewrite filter_In, In_columns. split.
    - intros [[c Hc] H]. rewrite (get_column_In _ _ _ Hnd Hc) in H. eauto.
    - intros [c [Hc H]]. rewrite (get_column_In _ _ _ Hnd Hc). eauto. }
  replace (find _ nulls) with (@None string).
  2:{ symmetry. apply find_none_iff. intros n Hn.
      apply negb_false_iff, mem_In, In_columns.
      apply Hnulls in Hn. destruct Hn as [c [Hc _]]. eauto. }
  f_equal. unfold PandasFrame.dropna_columns.
  apply filter_ext_in. intros [n c] Hin. simpl.
  destruct (mem n nulls) eqn:E.
  - apply mem_In, Hnulls in E. destruct E as [c' [Hc' H]].
    pose proof (get_column_In _ _ _ Hnd Hin) as Hc.
    assert (c' = c).
    { pose proof (get_column_In _ _ _ Hnd Hc'). congruence. }
    subst c'. apply Nat.ltb_lt in H. simpl. symmetry. apply Nat.eqb_neq. lia.
  - simpl. symmetry. apply Nat.eqb_eq.
    destruct (null_count c) as [|k] eqn:Ec; [reflexivity|].
    assert (In n nulls); [|apply mem_In in H; congruence].
    apply Hnulls. exists c. split; [exact Hin|]. rewrite Ec. reflexivity.
Qed.

(** [drop_null_columns] never raises on a frame with distinct column
    names, and keeps what [dropna(axis=1, how="any")] keeps: the columns
    without a null, in their order. *)
Theorem drop_null_columns_is_dropna (data : DataFrame) :
  NoDup (columns data) ->
  Chapter5.drop_null_columns data = Ok (PandasFrame.dropna_columns data)
  /\ forall name c, In (name, c) (PandasFrame.dropna_columns data)
                    <-> In (name, c) data /\ null_count c = 0.
Proof.
  intros Hnd. split; [apply drop_null_columns_eq; exact Hnd|].
  intros name c. unfold PandasFrame.dropna_columns.
  rewrite filter_In. simpl. rewrite Nat.eqb_eq. tauto.
Qed.

Lemma drop_null_columns_witness :
  Chapter5.drop_null_columns
    [("Temp", StrCol [Some "1"; Some "2"]); ("Temp Flag", StrCol [None; Some "M"])]
  = Ok [("Temp", StrCol [Some "1"; Some "2"])].
Proof.
  apply (drop_null_columns_is_dropna
           [("Temp", StrCol [Some "1"; Some "2"]);
            ("Temp Flag", StrCol [None; Some "M"])]).
  repeat constructor; simpl; intuition discriminate.
Defined.

Lemma lookup_In (mapping : list (string * string)) (name v : string) :
  Polars.lookup mapping name = Some v -> In v (map snd mapping).
Proof.
  induction mapping as [|[k w] mapping IH]; simpl; [discriminate|].
  destruct (String.eqb k name); [|auto].
  intros H. injection H as ->. auto.
Qed.

(** When [pl_clean_data] returns, the frame it was given had every
    column the function drops and every column it gives another name,
    each without a null; ["Weather"], which the mapping sends to itself,
    is not among them.  The frame it returns has no null at all and none
    of the four redundant columns. *)
Theorem pl_clean_data_contract (data returned : DataFrame)
  (g g' : Chapter5.globals) :
  NoDup (columns data) ->
  Chapter5.pl_clean_data data g = Ok (returned, g') ->
  (forall name,
      In name (Chapter5Rest.redundant
               ++ map fst (Polars.effective Chapter5.rename_mapping)) ->
      exists c, get_column name data = Some c /\ null_count c = 0)
  /\ (forall c, In c (map snd returned) -> null_count c = 0)
  /\ (forall name, In name Chapter5Rest.redundant ->
                   ~ In name (columns returned)).
Proof.
  intros Hnd H. apply pl_clean_data_effect in H.
  destruct H as [[d1 [d2 [H1 [H2 H3]]]] _].
  rewrite (drop_null_columns_eq _ Hnd) in H1. injection H1 as <-.
  unfold Polars.drop in H2.
  destruct (find _ _) eqn:Ef2 in H2; [discriminate|]. injection H2 as <-.
  unfold Polars.rename in H3. cbv zeta in H3.
  destruct (find _ (Polars.effective Chapter5.rename_mapping)) eqn:Ef3 in H3;
    [discriminate|].
  apply columns_set_columns in H3. destruct H3 as [Hcols Hdata].
  pose proof (proj1 (find_none_iff _ _) Ef2) as Hfour.
  pose proof (proj1 (find_none_iff _ _) Ef3) as Hkeys.
  set (d1 := PandasFrame.dropna_columns data) in *.
  set (d2 := List.filter _ d1) in *.
  assert (Hd1 : forall n, In n (columns d1) ->
            exists c, get_column n data = Some c /\ null_count c = 0).
  { intros n Hn. apply In_columns in Hn. destruct Hn as [c Hc].
    unfold d1, PandasFrame.dropna_columns in Hc.
    apply filter_In in Hc. destruct Hc as [Hc E]. simpl in E.
    apply Nat.eqb_eq in E. exists c.
    split; [apply get_column_In; assumption | exact E]. }
  assert (Hd2 : forall n c, In (n, c) d2 ->
            In (n, c) d1 /\ ~ In n Chapter5Rest.redundant).
  { intros n c Hc. unfold d2 in Hc. apply filter_In in Hc.
    destruct Hc as [Hc E]. cbn [fst] in E. split; [exact Hc|].
    intros Hin. apply mem_In in Hin.
    unfold Chapter5Rest.redundant, mem in Hin. simpl in Hin, E.
    rewrite Hin in E. discriminate. }
  split; [|split].
  - intros name Hname. apply in_app_or in Hname.
    destruct Hname as [Hname|Hname].
    + apply Hd1. apply mem_In. apply negb_false_iff.
      apply (Hfour name). exact Hname.
    + apply in_map_iff in Hname. destruct Hname as [kv [<- Hkv]].
      specialize (Hkeys kv Hkv). apply negb_false_iff, mem_In in Hkeys.
      apply In_columns in Hkeys. destruct Hkeys as [c Hc].
      apply Hd1. apply In_columns. exists c. apply (Hd2 _ _ Hc).
  - intros c Hc. rewrite Hdata in Hc. apply in_map_iff in Hc.
    destruct Hc as [[n c'] [<- Hc]]. simpl.
    destruct (Hd2 _ _ Hc) as [Hc1 _].
    unfold d1, PandasFrame.dropna_columns in Hc1.
    apply filter_In in Hc1. destruct Hc1 as [_ E]. simpl in E.
    apply Nat.eqb_eq. exact E.
  - intros name Hname Hin. rewrite Hcols in Hin.
    apply in_map_iff in Hin. destruct Hin as [n [Hren Hn]].
    apply In_columns in Hn. destruct Hn as [c Hc].
    destruct (Hd2 _ _ Hc) as [_ Hnot].
    destruct (Polars.lookup (Polars.effective Chapter5.rename_mapping) n)
      as [v|] eqn:El.
    + subst v. apply lookup_In in El.
      assert (Hno : forallb (fun v => negb (mem v Chapter5Rest.redundant))
                      (map snd (Polars.effective Chapter5.rename_mapping))
                    = true)
        by reflexivity.
      rewrite forallb_forall in Hno. specialize (Hno _ El).
      apply negb_true_iff in Hno. apply mem_In in Hname. congruence.
    + subst n. contradiction.
Qed.

Lemma pl_clean_data_contract_witness :
  (forall name,
      In name (Chapter5Rest.redundant
               ++ map fst (Polars.effective Chapter5.rename_mapping)) ->
      exists c, get_column name Chapter5.sample_month = Some c
                /\ null_count c = 0)
  /\ (forall c,
        In c (map snd
                (combine
                   ["Longitude"; "Latitude"; "Station_Name"; "Climate_ID";
                    "Date_Time"; "Temperature_C"; "Dew_Point_Temp_C";
                    "Relative_Humidity"; "Wind_Speed_kmh"; "Visibility_km";
                    "Station_Pressure_kPa"; "Weather"]
                   (repeat Chapter5.one_row 12))) ->
        null_count c = 0)
  /\ (forall name, In name Chapter5Rest.redundant ->
        ~ In name
            (columns
               (combine
                  ["Longitude"; "Latitude"; "Station_Name"; "Climate_ID";
                   "Date_Time"; "Temperature_C"; "Dew_Point_Temp_C";
                   "Relative_Humidity"; "Wind_Speed_kmh"; "Visibility_km";
                   "Station_Pressure_kPa"; "Weather"]
                  (repeat Chapter5.one_row 12)))).
Proof.
  apply (pl_clean_data_contract Chapter5.sample_month _
           Chapter5.sample_globals
           {| Chapter5.pl_weather_mar2012 :=
                [("date/time (lst)", Chapter5.one_row);
                 ("temp (°c)", Chapter5.one_row);
                 ("weather", Chapter5.one_row)] |}).
  - apply (NoDup_count_occ' string_dec). intros x Hx.
    simpl in Hx.
    repeat (destruct Hx as [<-|Hx]; [reflexivity|]). contradiction.
  - reflexivity.
Defined.

Lemma lower_ascii_idempotent (c : ascii) :
  Chapter5.lower_ascii (Chapter5.lower_ascii c) = Chapter5.lower_ascii c.
Proof.
  destruct c as [[] [] [] [] [] [] [] []]; reflexivity.
Qed.

Lemma lower_idempotent (s : string) :
  Chapter5.lower (Chapter5.lower s) = Chapter5.lower s.
Proof.
  induction s as [|c s IH]; simpl; [reflexivity|].
  rewrite lower_ascii_idempotent, IH. reflexivity.
Qed.

Lemma pl_clean_data_global (data returned : DataFrame) (g g' : Chapter5.globals) :
  Chapter5.pl_clean_data data g = Ok (returned, g') ->
  columns (Chapter5.pl_weather_mar2012 g')
  = map Chapter5.lower (columns (Chapter5.pl_weather_mar2012 g))
  /\ map snd (Chapter5.pl_weather_mar2012 g')
     = map snd (Chapter5.pl_weather_mar2012 g).
Proof.
  unfold Chapter5.pl_clean_data, Chapter5.bindM, Chapter5.liftM,
    Chapter5.get_global, Chapter5.set_global, Chapter5.ret.
  destruct (Chapter5.drop_null_columns data) as [d1|]; [|discriminate].
  destruct (Polars.drop _ d1) as [d2|]; [|discriminate].
  destruct (Polars.rename _ d2) as [d3|]; [|discriminate].
  destruct (Polars.set_columns _ _) as [mar'|] eqn:Eset; [|discriminate].
  intros H. injection H as <- <-. simpl.
  apply columns_set_columns in Eset. exact Eset.
Qed.

Lemma mapM_downloads (read_csv : nat -> nat -> result DataFrame)
  (months : list nat) (g g' : Chapter5.globals) (frames : list DataFrame) :
  Chapter5Rest.mapM
    (fun i => Chapter5.pl_download_weather_month read_csv 2012 i) months g
  = Ok (frames, g') ->
  length frames = length months
  /\ (months = [] -> g' = g)
  /\ (months <> [] ->
      columns (Chapter5.pl_weather_mar2012 g')
      = map Chapter5.lower (columns (Chapter5.pl_weather_mar2012 g))
      /\ map snd (Chapter5.pl_weather_mar2012 g')
         = map snd (Chapter5.pl_weather_mar2012 g)).
Proof.
  revert g g' frames. induction months as [|i months IH]; intros g g' frames.
  - simpl. unfold Chapter5.ret. intros H. injection H as <- <-.
    split; [reflexivity|]. split; [reflexivity | congruence].
  - simpl. unfold Chapter5.bindM at 1.
    destruct (Chapter5.pl_download_weather_month read_csv 2012 i g)
      as [[b g1]|] eqn:E1; [|discriminate].
    unfold Chapter5.bindM at 1.
    destruct (Chapter5Rest.mapM _ months g1) as [[bs g2]|] eqn:E2;
      [|discriminate].
    unfold Chapter5.ret. intros H. injection H as <- <-.
    destruct (IH _ _ _ E2) as [Hlen [Hnil Hcons]].
    apply pl_download_weather_month_inv in E1.
    destruct E1 as [weather_data [_ E1]].
    apply pl_clean_data_global in E1. destruct E1 as [Hc1 Hd1].
    split; [simpl; congruence|]. split; [discriminate|]. intros _.
    destruct months as [|j months].
    + rewrite (Hnil eq_refl). auto.
    + destruct Hcons as [Hc2 Hd2]; [discriminate|].
      rewrite Hc2, Hd2, Hc1, Hd1. split; [|reflexivity].
      rewrite map_map. apply map_ext. intros n. apply lower_idempotent.
Qed.

(** Whatever the reader answers, when the twelve downloads of line 261
    have returned, they have returned twelve frames, and a module-level
    frame whose names are ASCII is left with the lowercase of the names
    it had and with the data it had: writing the lowercase names twelve
    times is writing them once. *)
Theorem pl_data_by_month_global (read_csv : nat -> nat -> result DataFrame)
  (g g' : Chapter5.globals) (pl_data_by_month : list DataFrame) :
  forallb Text.ascii_only (columns (Chapter5.pl_weather_mar2012 g)) = true ->
  Chapter5Rest.pl_data_by_month read_csv g = Ok (pl_data_by_month, g') ->
  length pl_data_by_month = 12
  /\ columns (Chapter5.pl_weather_mar2012 g')
     = map Chapter5.lower (columns (Chapter5.pl_weather_mar2012 g))
  /\ map snd (Chapter5.pl_weather_mar2012 g')
     = map snd (Chapter5.pl_weather_mar2012 g).
Proof.
  intros _ H. apply mapM_downloads in H. destruct H as [Hlen [_ H]].
  split; [exact Hlen|]. apply H. discriminate.
Qed.

(** ** Chapter 5, the pandas cleaning *)

(** The pandas [clean_data] returns exactly when the four redundant
    columns are there without a missing value; what it returns has all
    its names in lowercase, no missing value, and the index named
    [date_time]. *)
Theorem clean_data_lowercases (data : Chapter5Rest.PdFrame) :
  ((exists out, Chapter5Rest.clean_data data = Ok out)
   <-> forall name, In name Chapter5Rest.redundant ->
         exists c, In (name, c) (Chapter5Rest.table data) /\ null_count c = 0)
  /\ forall out, Chapter5Rest.clean_data data = Ok out ->
       Chapter5Rest.index_name out = Some "date_time"
       /\ (forall name, In name (columns (Chapter5Rest.table out)) ->
                        Chapter5.lower name = name)
       /\ (forall c, In c (map snd (Chapter5Rest.table out)) ->
                     null_count c = 0).
Proof.
  unfold Chapter5Rest.clean_data, PandasFrame.drop_columns.
  set (full := PandasFrame.dropna_columns (Chapter5Rest.table data)).
  assert (Hfull : forall n, In n (columns full) <->
            exists c, In (n, c) (Chapter5Rest.table data) /\ null_count c = 0).
  { intros n. rewrite In_columns. unfold full, PandasFrame.dropna_columns.
    split; intros [c H]; exists c.
    - apply filter_In in H. simpl in H. rewrite Nat.eqb_eq in H. exact H.
    - apply filter_In. simpl. rewrite Nat.eqb_eq. exact H. }
  destruct (find _ Chapter5Rest.redundant) as [missing|] eqn:Ef.
  - split.
    + split; [intros [out H]; discriminate|].
      intros H. exfalso. apply find_some in Ef. destruct Ef as [Hin Hm].
      apply negb_true_iff in Hm.
      assert (mem missing (columns full) = true); [|congruence].
      apply mem_In, Hfull, H. exact Hin.
    + intros out H. discriminate.
  - pose proof (proj1 (find_none_iff _ _) Ef) as Hall. split.
    + split; [|intros _; eexists; reflexivity].
      intros _ name Hname. apply Hfull, mem_In.
      apply negb_false_iff. apply Hall. exact Hname.
    + intros out H. simpl in H. injection H as <-. simpl.
      split; [reflexivity|]. split.
      * intros name Hname. unfold columns, PandasFrame.map_columns in Hname.
        rewrite map_map in Hname. apply in_map_iff in Hname.
        destruct Hname as [nc [<- _]]. simpl. apply lower_idempotent.
      * intros c Hc.
        unfold PandasFrame.map_columns, PandasFrame.rename_columns in Hc.
        rewrite !map_map in Hc. simpl in Hc.
        apply in_map_iff in Hc. destruct Hc as [[n c'] [<- Hc]].
        apply filter_In in Hc. destruct Hc as [Hc _].
        unfold full, PandasFrame.dropna_columns in Hc.
        apply filter_In in Hc. destruct Hc as [_ E]. simpl in E.
        apply Nat.eqb_eq in E. exact E.
Qed.

(** ** Chapter 6, the share of snowy hours *)

Local Open Scope Z_scope.

Lemma sum_of_flags (l : list Q) :
  Forall (fun x => x = 0%Q \/ x = 1%Q) l ->
  (0 <= Chapter6Snow.sum l)%Q
  /\ (Chapter6Snow.sum l <= inject_Z (Z.of_nat (length l)))%Q.
Proof.
  induction 1 as [|x l Hx Hl [IH0 IH1]]; simpl.
  - split; apply Qle_refl.
  - rewrite Zpos_P_of_succ_nat. unfold Z.succ. rewrite inject_Z_plus.
    destruct Hx as [->| ->]; split.
    + rewrite Qplus_0_l. exact IH0.
    + rewrite Qplus_0_l. eapply Qle_trans; [exact IH1|].
      rewrite <- (Qplus_0_r (inject_Z (Z.of_nat (length l)))) at 1.
      apply Qplus_le_compat; [apply Qle_refl | discriminate].
    + rewrite <- (Qplus_0_l 0). apply Qplus_le_compat; [discriminate | exact IH0].
    + rewrite Qplus_comm. apply Qplus_le_compat; [exact IH1 | apply Qle_refl].
Qed.

Lemma mean_of_flags (l : list Q) :
  l <> [] -> Forall (fun x => x = 0%Q \/ x = 1%Q) l ->
  exists q, Chapter6Snow.mean l = Some q /\ (0 <= q)%Q /\ (q <= 1)%Q.
Proof.
  intros Hne Hl. destruct (sum_of_flags l Hl) as [H0 H1].
  destruct l as [|x l]; [congruence|].
  unfold Chapter6Snow.mean. eexists. split; [reflexivity|].
  set (n := inject_Z (Z.of_nat (length (x :: l)))) in *.
  assert (Hn : (0 < n)%Q).
  { unfold n. rewrite <- (Zlt_Qlt 0). simpl length. lia. }
  split.
  - apply Qle_shift_div_l; [exact Hn|]. rewrite Qmult_0_l. exact H0.
  - apply Qle_shift_div_r; [exact Hn|]. rewrite Qmult_1_l. exact H1.
Qed.

(** On a weather frame sorted by [date_time], with no weather missing,
    the share of snowy hours of every month present is the same in the
    polars result and in the pandas result, and lies between 0 and 1. *)
Theorem snow_shares_agree (rows : list Chapter6Snow.observation) :
  forallb Chapter6.valid (map fst rows) = true ->
  Chapter6.is_sorted (map fst rows) = true ->
  exists out,
    Chapter6Snow.pl_snow_by_month rows = Ok out
    /\ forall r, In r rows ->
         exists share,
           Chapter6.at_label (Chapter6.month_start (fst r)) out
           = Some (Some share)
           /\ Chapter6.at_label (Chapter6.month_end (fst r))
                (Chapter6Snow.snow_by_month rows)
              = Some (Some share)
           /\ (0 <= share)%Q /\ (share <= 1)%Q.
Proof.
  intros Hvalid Hsorted.
  assert (Hfst : map fst (Chapter6Snow.is_snowing rows) = map fst rows).
  { unfold Chapter6Snow.is_snowing. rewrite map_map. reflexivity. }
  destruct (monthly_groups_agree Chapter6Snow.mean Chapter6Snow.mean
              (Chapter6Snow.is_snowing rows)) as [out [Hout Hrows]].
  { rewrite Hfst. exact Hvalid. }
  { rewrite Hfst. exact Hsorted. }
  exists out. split; [exact Hout|].
  intros r Hr.
  set (flag := (fst r, if Polars.contains "Snow" (snd r) then 1%Q else 0%Q)).
  assert (Hflag : In flag (Chapter6Snow.is_snowing rows)).
  { unfold Chapter6Snow.is_snowing. apply in_map_iff. exists r. auto. }
  destruct (Hrows flag Hflag) as [_ [Hpl Hpd]]. simpl fst in Hpl, Hpd.
  destruct (mean_of_flags
              (Chapter6.temperatures_of_month (fst r)
                 (Chapter6Snow.is_snowing rows)))
    as [share [Hmean Hbounds]].
  - unfold Chapter6.temperatures_of_month.
    assert (Hin : In flag (List.filter (Chapter6.same_month (fst r))
                             (Chapter6Snow.is_snowing rows))).
    { apply filter_In. split; [exact Hflag|].
      apply same_month_iff. split; reflexivity. }
    destruct (List.filter _ _); [contradiction | discriminate].
  - unfold Chapter6.temperatures_of_month. apply Forall_forall.
    intros x Hx. apply in_map_iff in Hx. destruct Hx as [p [<- Hp]].
    apply filter_In in Hp. destruct Hp as [Hp _].
    unfold Chapter6Snow.is_snowing in Hp. apply in_map_iff in Hp.
    destruct Hp as [o [<- _]]. simpl.
    destruct (Polars.contains "Snow" (snd o)); auto.
  - exists share. unfold Chapter6Snow.snow_by_month.
    rewrite Hpl, Hpd, Hmean. auto.
Qed.

Lemma snow_shares_witness :
  exists out,
    Chapter6Snow.pl_snow_by_month Chapter6Snow.sample_hours = Ok out
    /\ forall r, In r Chapter6Snow.sample_hours ->
         exists share,
           Chapter6.at_label (Chapter6.month_start (fst r)) out
           = Some (Some share)
           /\ Chapter6.at_label (Chapter6.month_end (fst r))
                (Chapter6Snow.snow_by_month Chapter6Snow.sample_hours)
              = Some (Some share)
           /\ (0 <= share)%Q /\ (share <= 1)%Q.
Proof.
  apply (snow_shares_agree Chapter6Snow.sample_hours); reflexivity.
Defined.

(** ** Chapter 8, the rows after the epoch *)

(** For every number of seconds pandas converts, the pandas filter of
    line 69 and the polars filter of line 76 keep the same rows: those
    with a positive number of seconds. *)
Theorem rows_after_epoch_agree (atime ns : Z) :
  Chapter8.int64 atime ->
  Chapter8.to_datetime_s atime = Chapter8.Instant ns ->
  Chapter8Rest.after_epoch ns
  = Chapter8Rest.pl_after_epoch (Chapter8.times_1000 atime)
  /\ Chapter8Rest.after_epoch ns = (0 <? atime).
Proof.
  intros _ H. apply to_datetime_s_instant in H. destruct H as [-> H].
  pose proof (times_1000_exact atime H) as Hw.
  unfold Chapter8Rest.pl_after_epoch, Chapter8Rest.after_epoch,
    Chapter8.cast_datetime_ms.
  rewrite Hw. split; apply eq_true_iff_eq; rewrite !Z.ltb_lt; lia.
Qed.

Lemma rows_after_epoch_witness :
  Chapter8Rest.after_epoch 1354000000000000000
  = Chapter8Rest.pl_after_epoch (Chapter8.times_1000 1354000000)
  /\ Chapter8Rest.after_epoch 1354000000000000000 = (0 <? 1354000000).
Proof.
  apply (rows_after_epoch_agree 1354000000 1354000000000000000).
  - unfold Chapter8.int64. lia.
  - reflexivity.
Defined.

Local Close Scope Z_scope.

Lemma pl_data_by_month_witness :
  exists frames g',
    Chapter5Rest.pl_data_by_month Chapter5Rest.sample_read_csv
      Chapter5Rest.sample_ascii_globals = Ok (frames, g')
    /\ length frames = 12
    /\ columns (Chapter5.pl_weather_mar2012 g')
       = ["date_time"; "temperature_c"; "weather"].
Proof.
  destruct (Chapter5Rest.pl_data_by_month Chapter5Rest.sample_read_csv
              Chapter5Rest.sample_ascii_globals) as [[frames g']|] eqn:E;
    [|vm_compute in E; discriminate].
  exists frames, g'. split; [reflexivity|].
  destruct (pl_data_by_month_global Chapter5Rest.sample_read_csv
              Chapter5Rest.sample_ascii_globals g' frames eq_refl E)
    as [Hlen [Hcols _]].
  split; [exact Hlen|]. rewrite Hcols. reflexivity.
Defined.

Lemma clean_data_witness :
  exists out,
    Chapter5Rest.clean_data Chapter5Rest.sample_frame = Ok out
    /\ Chapter5Rest.index_name out = Some "date_time"
    /\ columns (Chapter5Rest.table out)
       = ["longitude"; "temperature_c"; "weather"].
Proof.
  destruct (clean_data_lowercases Chapter5Rest.sample_frame) as [[_ Hreturns] Hout].
  destruct Hreturns as [out Hclean].
  - intros name Hname. simpl in Hname.
    destruct Hname as [<-|[<-|[<-|[<-|[]]]]]; eexists; split;
      try reflexivity; simpl; auto 10.
  - exists out. split; [exact Hclean|].
    destruct (Hout out Hclean) as [Hindex _]. split; [exact Hindex|].
    vm_compute in Hclean. injection Hclean as <-. reflexivity.
Defined.

(** ** Chapter 7, from the frame to the clean column *)

Lemma truncate_eq (requests : DataFrame) (zips : list (option string)) :
  get_column Chapter7.zip requests = Some (StrCol zips) ->
  height requests = length zips ->
  Chapter7.truncate requests
  = Ok (put_column Chapter7.zip (StrCol (map Chapter7.first5 zips)) requests).
Proof.
  intros Hcol Hh. pose proof (get_column_nonempty _ _ _ Hcol) as Hne.
  unfold Chapter7.truncate, Pandas.getitem_str, Pandas.setitem.
  rewrite Hcol. simpl.
  destruct requests as [|p rest]; [congruence|].
  unfold Pandas.str_slice. simpl col_length.
  rewrite length_map, <- Hh, Nat.eqb_refl. reflexivity.
Qed.

(** On a frame that has been read with a string column [Incident Zip]
    the statements of the cells, pandas and polars, run to their end,
    and both leave in [Incident Zip] what [fix_zip_codes] makes of the
    column as it was read. *)
Theorem cells_clean_the_frame (requests : DataFrame)
  (zips : list (option string)) :
  get_column Chapter7.zip requests = Some (StrCol zips) ->
  height requests = length zips ->
  exists fixed out pl_out,
    Chapter7.fix_zip_codes zips = Ok fixed
    /\ Chapter7Cells.cleaned requests = Ok out
    /\ get_column Chapter7.zip out = Some (StrCol fixed)
    /\ Chapter7Cells.pl_cleaned requests = Ok pl_out
    /\ get_column Chapter7.zip pl_out = Some (StrCol fixed).
Proof.
  intros Hcol Hh. pose proof (get_column_nonempty _ _ _ Hcol) as Hne.
  set (dashed := put_column "rows_with_dashes"
                   (BoolCol (map (option_map (Polars.contains "-")) zips))
                   requests).
  assert (Hdashed : Chapter7.pl_rows_with_dashes requests = Ok dashed).
  { unfold Chapter7.pl_rows_with_dashes.
    apply (with_columns_named_values _ Boolean); auto.
    - simpl. rewrite Hcol. reflexivity.
    - rewrite length_map. symmetry. exact Hh. }
  assert (Hcol1 : get_column Chapter7.zip dashed = Some (StrCol zips)).
  { unfold dashed. rewrite get_column_put_other; [exact Hcol | reflexivity]. }
  assert (Hh1 : height dashed = length zips).
  { unfold dashed. rewrite height_put_column; auto.
    simpl. rewrite length_map. symmetry. exact Hh. }
  destruct (pl_cells_fix_zip_codes dashed zips Hcol1 Hh1)
    as [pl_out [fixed [Hout [Hfix Hres]]]].
  rewrite fix_zip_codes_eq in Hfix. injection Hfix as <-.
  exists (map (fun z => Chapter7.clear_zero (Chapter7.first5 z)) zips).
  eexists. exists pl_out.
  split; [apply fix_zip_codes_eq|].
  unfold Chapter7Cells.cleaned, Chapter7Cells.pl_cleaned.
  rewrite (truncate_eq _ zips Hcol Hh). simpl bind.
  rewrite (clear_zero_zips_eq _ (map Chapter7.first5 zips))
    by apply get_column_put_same.
  split; [reflexivity|].
  split; [rewrite get_column_put_same, map_map; reflexivity|].
  rewrite Hdashed. simpl bind.
  split; [exact Hout | exact Hres].
Qed.

Lemma cells_clean_witness :
  exists fixed out pl_out,
    Chapter7.fix_zip_codes
      [Some "29616-0759"; Some "00000"; Some "NO CLUE"] = Ok fixed
    /\ Chapter7Cells.cleaned Chapter7Cells.sample_requests = Ok out
    /\ get_column Chapter7.zip out = Some (StrCol fixed)
    /\ Chapter7Cells.pl_cleaned Chapter7Cells.sample_requests = Ok pl_out
    /\ get_column Chapter7.zip pl_out = Some (StrCol fixed).
Proof.
  apply (cells_clean_the_frame Chapter7Cells.sample_requests
           [Some "29616-0759"; Some "00000"; Some "NO CLUE"]);
    reflexivity.
Defined.
